(** * AI Novelist Studio (app.py): a shallow embedding of the Streamlit script

    The repository is one reactive script, [app.py].  Streamlit executes the
    whole script from top to bottom on every user interaction; what survives
    from one execution to the next is [st.session_state] and the process
    environment.  The embedding follows that shape:

    - Python [str] values are [string]s holding the UTF-8 encoding of the text
      (the non-ASCII characters of the source literals are kept as they are);
    - [st.session_state] is a record with one optional field per key the
      script uses ([None] is "key absent"), the story bible is a record whose
      [characters] field is a finite map;
    - [os.environ] is a finite map from names to values;
    - [os.environ] refuses a value with a NUL character, as Python does
      ([ValueError: embedded null byte]);
    - a script run is a computation in a small state-and-exception monad:
      [st.rerun()], a failed session lookup and a refused write to the
      environment end the run, the state they leave behind is kept;
    - what the script draws is logged, in order, as a list of page elements.

    What the user typed and which button the user pressed are the inputs of a
    run. *)

From stdpp Require Import gmap strings list fin_maps.
From Stdlib Require Import String Ascii QArith.

Close Scope Q_scope.
Open Scope string_scope.

(* ===================================================================== *)
(** * Data model *)
(* ===================================================================== *)

(** The line feed and the double quote of the source's string literals. *)
Definition LF : string := String "010" EmptyString.
Definition DQ : string := String "034" EmptyString.

(** The story bible: [{"characters": {}, "summary": "Start of the story."}]. *)
Record StoryBible := mkStoryBible {
  characters : gmap string string;
  summary : string
}.

(** [st.session_state], seen through the four keys of the script. *)
Record SessionState := mkSessionState {
  story_bible : option StoryBible;
  scene_card : option string;
  draft : option string;
  report : option string
}.

(** [ChatOpenAI(model=..., temperature=...)]. *)
Record ChatOpenAI := mkChatOpenAI {
  model : string;
  temperature : Q
}.

(** The module-level name [llm] during a run: not assigned yet, bound to
    [None], or bound to a client object. *)
Inductive binding :=
| Unbound
| PyNone
| Obj (client : ChatOpenAI).

(** The buttons of the page and their labels. *)
Inductive button :=
| ClearSessionMemory
| GenerateOutline
| WriteDraft
| AnalyzeEdit.

Definition button_eqb (a b : button) : bool :=
  match a, b with
  | ClearSessionMemory, ClearSessionMemory
  | GenerateOutline, GenerateOutline
  | WriteDraft, WriteDraft
  | AnalyzeEdit, AnalyzeEdit => true
  | _, _ => false
  end.

Definition label (b : button) : string :=
  match b with
  | ClearSessionMemory => "Clear Session Memory"
  | GenerateOutline => "🏗️ Generate Outline"
  | WriteDraft => "✍️ Write Draft"
  | AnalyzeEdit => "🧐 Analyze & Edit"
  end.

(** Where an element is drawn. *)
Inductive container :=
| Main
| Sidebar
| Col1
| Col2
| Expander (parent : container) (title : string).

(** The calls to [st.*] that draw something, with the arguments that decide
    what is shown (heights and placeholders are left out). *)
Inductive element :=
| PageConfig (page_title layout : string)
| Title (body : string)
| Markdown (body : string)
| Header (body : string)
| Subheader (body : string)
| Caption (body : string)
| Divider
| TextInput (lbl value : string) (password : bool)
| Selectbox (lbl : string) (options : list string)
| SelectSlider (lbl : string) (options : list string)
| TextArea (lbl value : string)
| Button (lbl : string)
| Spinner (text : string)
| Info (body : string)
| Success (body : string)
| ExpanderBox (title : string)
| Json (body : StoryBible).

(** Everything a run can read or change. *)
Record state := mkState {
  session_state : SessionState;            (* st.session_state *)
  environ : gmap string string;            (* os.environ *)
  llm : binding;                           (* the global [llm] *)
  slept : nat;                             (* seconds spent in time.sleep *)
  page : list (container * element)        (* what has been drawn, in order *)
}.

(** What the user entered in the input widgets, and the button pressed (a
    Streamlit button is true only in the run its click triggers, so at most
    one is). [edited_card] is the text typed over the scene card, [None] when
    the text area is left as it was filled. *)
Record user_input := mkInput {
  api_key : string;
  genre : string;
  tone : string;
  style : string;
  premise_input : string;
  edited_card : option string
}.

(* ===================================================================== *)
(** * The monad of a script run *)
(* ===================================================================== *)

Inductive outcome (A : Type) : Type :=
| Done (a : A)
| RerunException
| KeyError (key : string)
| ValueError.

Arguments Done {A} a.
Arguments RerunException {A}.
Arguments KeyError {A} key.
Arguments ValueError {A}.

Definition run (A : Type) : Type := state -> outcome A * state.

Definition ret {A : Type} (a : A) : run A := fun s => (Done a, s).

Definition bind {A B : Type} (m : run A) (k : A -> run B) : run B :=
  fun s =>
    match m s with
    | (Done a, s') => k a s'
    | (RerunException, s') => (RerunException, s')
    | (KeyError key, s') => (KeyError key, s')
    | (ValueError, s') => (ValueError, s')
    end.

Declare Scope run_scope.
Delimit Scope run_scope with run.
Bind Scope run_scope with run.

Notation "x <- m ;; k" := (bind m (fun x => k))
  (at level 100, m at next level, k at level 200, only parsing, right associativity) : run_scope.
Notation "m ;; k" := (bind m (fun _ => k))
  (at level 100, k at level 200, only parsing, right associativity) : run_scope.

Open Scope run_scope.

(** [if c: body] *)
Definition when (c : bool) (body : run unit) : run unit :=
  if c then body else ret tt.

(** Python's truth value of a [str]. *)
Definition truthy (s : string) : bool :=
  match s with
  | EmptyString => false
  | String _ _ => true
  end.

(** ** State updates *)

Definition set_session (f : SessionState -> SessionState) (s : state) : state :=
  {| session_state := f (session_state s);
     environ := environ s;
     llm := llm s;
     slept := slept s;
     page := page s |}.

Definition set_environ (f : gmap string string -> gmap string string) (s : state) : state :=
  {| session_state := session_state s;
     environ := f (environ s);
     llm := llm s;
     slept := slept s;
     page := page s |}.

Definition set_llm (b : binding) (s : state) : state :=
  {| session_state := session_state s;
     environ := environ s;
     llm := b;
     slept := slept s;
     page := page s |}.

Definition add_slept (secs : nat) (s : state) : state :=
  {| session_state := session_state s;
     environ := environ s;
     llm := llm s;
     slept := slept s + secs;
     page := page s |}.

Definition draw (c : container) (e : element) (s : state) : state :=
  {| session_state := session_state s;
     environ := environ s;
     llm := llm s;
     slept := slept s;
     page := page s ++ [(c, e)] |}.

Definition modify (f : state -> state) : run unit := fun s => (Done tt, f s).

(** ** Primitives of the script *)

(** [time.sleep(secs)] *)
Definition sleep (secs : nat) : run unit := modify (add_slept secs).

(** [st.rerun()]: the run stops here. *)
Definition st_rerun {A : Type} : run A := fun s => (RerunException, s).

(** The string holds a NUL character. *)
Fixpoint has_nul (s : string) : bool :=
  match s with
  | EmptyString => false
  | String c rest => Ascii.eqb c "000" || has_nul rest
  end.

(** [os.environ[name] = value]: a name or a value with a NUL character is
    refused with a [ValueError] and nothing is written. *)
Definition environ_set (name value : string) : run unit :=
  fun s =>
    if has_nul name || has_nul value
    then (ValueError, s)
    else (Done tt, set_environ (insert name value) s).

(** [llm = value] *)
Definition assign_llm (value : binding) : run unit := modify (set_llm value).

(** [st.session_state.clear()] *)
Definition empty_session : SessionState :=
  {| story_bible := None; scene_card := None; draft := None; report := None |}.

Definition session_clear : run unit := modify (set_session (fun _ => empty_session)).

(** [key in st.session_state] *)
Definition present {A : Type} (value : option A) : bool :=
  match value with
  | Some _ => true
  | None => false
  end.

Definition session_has {A : Type} (field : SessionState -> option A) : run bool :=
  fun s => (Done (present (field (session_state s))), s).

(** [st.session_state[key]], a [KeyError] when the key is absent. *)
Definition session_get {A : Type} (key : string) (field : SessionState -> option A) : run A :=
  fun s =>
    match field (session_state s) with
    | Some v => (Done v, s)
    | None => (KeyError key, s)
    end.

(** [st.session_state[key] = value], one definition per key. *)
Definition put_story_bible (v : StoryBible) (ss : SessionState) : SessionState :=
  {| story_bible := Some v; scene_card := scene_card ss;
     draft := draft ss; report := report ss |}.

Definition put_scene_card (v : string) (ss : SessionState) : SessionState :=
  {| story_bible := story_bible ss; scene_card := Some v;
     draft := draft ss; report := report ss |}.

Definition put_draft (v : string) (ss : SessionState) : SessionState :=
  {| story_bible := story_bible ss; scene_card := scene_card ss;
     draft := Some v; report := report ss |}.

Definition put_report (v : string) (ss : SessionState) : SessionState :=
  {| story_bible := story_bible ss; scene_card := scene_card ss;
     draft := draft ss; report := Some v |}.

Definition session_set (put : SessionState -> SessionState) : run unit :=
  modify (set_session put).

(** ** Widgets: each draws itself and returns what the user gave it *)

Definition show (c : container) (e : element) : run unit := modify (draw c e).

Definition st_text_input (c : container) (lbl value : string) (password : bool)
    (typed : string) : run string :=
  show c (TextInput lbl value password);; ret typed.

Definition st_selectbox (c : container) (lbl : string) (options : list string)
    (chosen : string) : run string :=
  show c (Selectbox lbl options);; ret chosen.

Definition st_select_slider (c : container) (lbl : string) (options : list string)
    (chosen : string) : run string :=
  show c (SelectSlider lbl options);; ret chosen.

(** A text area returns its [value] until the user types over it. *)
Definition st_text_area (c : container) (lbl value : string)
    (typed : option string) : run string :=
  show c (TextArea lbl value);; ret (default value typed).

(** A button is true in the run that its click started. *)
Definition pressed (click : option button) (b : button) : bool :=
  match click with
  | Some b' => button_eqb b' b
  | None => false
  end.

Definition st_button (c : container) (b : button) (click : option button) : run bool :=
  show c (Button (label b));; ret (pressed click b).

(* ===================================================================== *)
(** * The mock generation functions *)
(* ===================================================================== *)

Definition outline_text (premise genre : string) : string :=
  "{" ++ LF ++
  "    " ++ DQ ++ "title" ++ DQ ++ ": " ++ DQ ++ "Mock Outline for " ++ genre ++ DQ ++ "," ++ LF ++
  "    " ++ DQ ++ "beats" ++ DQ ++ ": [" ++ LF ++
  "        " ++ DQ ++ "1. " ++ premise ++ " (The Setup)" ++ DQ ++ "," ++ LF ++
  "        " ++ DQ ++ "2. The protagonist faces a glitch in the system." ++ DQ ++ "," ++ LF ++
  "        " ++ DQ ++ "3. A sudden betrayal occurs." ++ DQ ++ "," ++ LF ++
  "        " ++ DQ ++ "4. Cliffhanger ending." ++ DQ ++ LF ++
  "    ]" ++ LF ++
  "}".

Definition draft_text (scene_card style : string) : string :=
  LF ++
  "    The neon lights of the server room hummed with a headache-inducing buzz. " ++ LF ++
  "    This was the style of " ++ style ++ "—short, punchy, no nonsense." ++ LF ++
  "    " ++ LF ++
  "    " ++ DQ ++ "System breach," ++ DQ ++ " the console read." ++ LF ++
  "    " ++ LF ++
  "    He didn't panic. He never panicked. He just typed faster, his fingers blurring like hummingbirds against the mechanical keys." ++ LF ++
  "    (This is a mock draft generated based on: " ++ scene_card ++ ")" ++ LF ++
  "    ".

Definition report_text (genre : string) : string :=
  LF ++
  "    # Editorial Report" ++ LF ++
  "    * **Genre Compliance:** " ++ genre ++ " conventions are met." ++ LF ++
  "    * **Pacing:** Good, but the middle section drags." ++ LF ++
  "    * **Logic Check:** Why did the console buzz? Servers are usually silent." ++ LF ++
  "    ".

(** [def generate_outline(premise, genre, context)] *)
Definition generate_outline (premise genre context : string) : run string :=
  sleep 2;;
  ret (outline_text premise genre).

(** [def write_draft(scene_card, style)] *)
Definition write_draft (scene_card style : string) : run string :=
  sleep 3;;
  ret (draft_text scene_card style).

(** [def critique_draft(draft, genre)] *)
Definition critique_draft (draft genre : string) : run string :=
  sleep 2;;
  ret (report_text genre).

(* ===================================================================== *)
(** * The script *)
(* ===================================================================== *)

Section App.

(** [json.dumps] applied to the story bible.  Its result is handed to
    [generate_outline] as [context]; the serialisation itself belongs to
    Python's library, so the script is read for any such function. *)
Variable json_dumps : StoryBible -> string.

(** Lines 15-34: the sidebar.  Returns [api_key], [genre] and [style]. *)
Definition sidebar (u : user_input) (click : option button)
    : run (string * string * string) :=
  show Sidebar (Header "⚙️ Mission Config");;
  api_key <- st_text_input Sidebar "OpenAI API Key" "" true (api_key u);;
  when (truthy api_key) (environ_set "OPENAI_API_KEY" api_key);;
  show Sidebar Divider;;
  genre <- st_selectbox Sidebar "Genre"
             ["Techno-Thriller"; "Cyberpunk"; "High Fantasy"; "Romance"] (genre u);;
  tone <- st_select_slider Sidebar "Tone Intensity"
             ["Light"; "Balanced"; "Gritty"; "Dark"] (tone u);;
  style <- st_text_input Sidebar "Author Style" "Hemingway-esque brevity" false (style u);;
  clicked <- st_button Sidebar ClearSessionMemory click;;
  when clicked (session_clear;; st_rerun);;
  ret (api_key, genre, style).

(** Lines 40-50: every key that is absent gets its first value. *)
Definition initial_bible : StoryBible :=
  {| characters := ∅; summary := "Start of the story." |}.

Definition session_state_management : run unit :=
  present <- session_has story_bible;;
  when (negb present) (session_set (put_story_bible initial_bible));;
  present <- session_has scene_card;;
  when (negb present) (session_set (put_scene_card ""));;
  present <- session_has draft;;
  when (negb present) (session_set (put_draft ""));;
  present <- session_has report;;
  when (negb present) (session_set (put_report "")).

(** Lines 54-56. *)
Definition llm_setup (api_key : string) : run unit :=
  assign_llm PyNone;;
  when (truthy api_key)
    (assign_llm (Obj {| model := "gpt-4-turbo"; temperature := Qmake 7 10 |})).

(** Lines 98-119: the left column.  Returns [premise_input]. *)
Definition column1 (u : user_input) (click : option button) (genre style : string)
    : run string :=
  show Col1 (Subheader "Step 1: The Blueprint");;
  premise_input <- st_text_area Col1 "Enter Chapter Premise:" "" (Some (premise_input u));;
  clicked <- st_button Col1 GenerateOutline click;;
  when clicked
    (show Col1 (Spinner "Architect is thinking...");;
     bible <- session_get "story_bible" story_bible;;
     outline <- generate_outline premise_input genre (json_dumps bible);;
     session_set (put_scene_card outline);;
     st_rerun);;
  card <- session_get "scene_card" scene_card;;
  when (truthy card)
    (show Col1 (Info "Edit the outline below if needed, then click 'Write Draft'.");;
     value <- session_get "scene_card" scene_card;;
     edited_card <- st_text_area Col1 "Scene Card (JSON/XML)" value (edited_card u);;
     session_set (put_scene_card edited_card);;
     clicked <- st_button Col1 WriteDraft click;;
     when clicked
       (show Col1 (Spinner "Drafter is writing...");;
        card <- session_get "scene_card" scene_card;;
        text <- write_draft card style;;
        session_set (put_draft text);;
        st_rerun));;
  ret premise_input.

(** Lines 121-142: the right column. *)
Definition column2 (click : option button) (genre premise_input : string) : run unit :=
  show Col2 (Subheader "Step 2: The Manuscript");;
  text <- session_get "draft" draft;;
  when (truthy text)
    (show Col2 (Success "Draft Generated!");;
     value <- session_get "draft" draft;;
     show Col2 (TextArea "Final Prose" value);;
     clicked <- st_button Col2 AnalyzeEdit click;;
     when clicked
       (show Col2 (Spinner "Editor is reviewing...");;
        text <- session_get "draft" draft;;
        verdict <- critique_draft text genre;;
        session_set (put_report verdict);;
        bible <- session_get "story_bible" story_bible;;
        session_set (put_story_bible
          {| characters := characters bible;
             summary := summary bible ++ " -> Processed premise: " ++ premise_input |});;
        st_rerun));;
  verdict <- session_get "report" report;;
  when (truthy verdict)
    (show Col2 (ExpanderBox "View Editorial Report");;
     body <- session_get "report" report;;
     show (Expander Col2 "View Editorial Report") (Markdown body);;
     show Col2 (ExpanderBox "View Story Bible (Memory)");;
     bible <- session_get "story_bible" story_bible;;
     show (Expander Col2 "View Story Bible (Memory)") (Json bible)).

(** The whole of [app.py], top to bottom. *)
Definition app_py (u : user_input) (click : option button) : run unit :=
  show Main (PageConfig "AI Novelist Studio" "wide");;
  show Main (Title "📚 AI Novelist Studio");;
  show Main (Markdown "### From Premise to Polished Prose");;
  vars <- sidebar u click;;
  let '(api_key, genre, style) := vars in
  session_state_management;;
  llm_setup api_key;;
  premise_input <- column1 u click genre style;;
  column2 click genre premise_input;;
  show Main (Markdown "---");;
  show Main (Caption "Powered by LangChain & Streamlit. Designed by The Prompt Engineer Master.").

(** A run starts with a fresh module namespace ([llm] not assigned yet) and
    an empty page; the session, the environment and the time already slept
    are those the previous run left. *)
Definition fresh (s : state) : state :=
  {| session_state := session_state s;
     environ := environ s;
     llm := Unbound;
     slept := slept s;
     page := [] |}.

Definition run_script (u : user_input) (click : option button) (s : state)
    : outcome unit * state :=
  app_py u click (fresh s).

(** One interaction: the run the user's action starts and, when that run
    asks for it, the rerun that follows, in which no button is pressed.
    [u'] is what the input widgets hold during the rerun. *)
Definition interact (u : user_input) (click : option button) (u' : user_input)
    (s : state) : outcome unit * state :=
  match run_script u click s with
  | (RerunException, s') => run_script u' None s'
  | r => r
  end.

(** The states a session can be in: it starts with an empty
    [st.session_state], then any run may follow any other. *)
Inductive reachable : state -> Prop :=
| reach_start (s : state) :
    session_state s = empty_session -> reachable s
| reach_run (s s' : state) (u : user_input) (click : option button) (r : outcome unit) :
    reachable s -> run_script u click s = (r, s') -> reachable s'.

(* ===================================================================== *)
(** * Notions used in the statements *)
(* ===================================================================== *)

(** [needle] occurs in [hay]. *)
Definition contains (needle hay : string) : Prop :=
  exists before after : string, hay = before ++ needle ++ after.

(** A computation that does nothing but sleep: there is one value, the same
    from every state, that it returns, and the state it leaves is the state it
    found with [secs] more seconds slept.  In particular it runs to the end
    where [llm] is unbound or [None], and the session, the environment, the
    binding of [llm] and the page do not enter the result. *)
Definition same_but_slept (s s' : state) : Prop :=
  session_state s' = session_state s /\
  environ s' = environ s /\
  llm s' = llm s /\
  page s' = page s.

Definition pure_but_sleep {A : Type} (m : run A) (secs : nat) : Prop :=
  exists a : A, forall s : state,
    fst (m s) = Done a /\
    same_but_slept s (snd (m s)) /\
    slept (snd (m s)) = slept s + secs.

(** What lines 40-50 make of a session: an absent key reads as its first
    value from then on. *)
Definition init_session (ss : SessionState) : SessionState :=
  {| story_bible := Some (default initial_bible (story_bible ss));
     scene_card := Some (default "" (scene_card ss));
     draft := Some (default "" (draft ss));
     report := Some (default "" (report ss)) |}.

(** Every key of the script is set. *)
Definition initialised (ss : SessionState) : Prop :=
  is_Some (story_bible ss) /\ is_Some (scene_card ss) /\
  is_Some (draft ss) /\ is_Some (report ss).

(** The same input with another content of the API-key field. *)
Definition with_api_key (key : string) (u : user_input) : user_input :=
  {| api_key := key; genre := genre u; tone := tone u; style := style u;
     premise_input := premise_input u; edited_card := edited_card u |}.

(** The labels of the buttons and the titles of the expanders of a page, in
    the order drawn. *)
Fixpoint buttons (pg : list (container * element)) : list string :=
  match pg with
  | [] => []
  | (_, Button lbl) :: rest => lbl :: buttons rest
  | _ :: rest => buttons rest
  end.

Fixpoint expanders (pg : list (container * element)) : list string :=
  match pg with
  | [] => []
  | (_, ExpanderBox t) :: rest => t :: expanders rest
  | _ :: rest => expanders rest
  end.

(** The four checks of the script on the session.  The first three are the
    truth values tested at lines 111, 124 and 137, read at the start of a run
    (an absent key is the empty string by then); the fourth is the test of
    line 40. *)
Inductive flag :=
| OutlineExists
| DraftExists
| ReportExists
| BibleExists.

Definition flag_value (f : flag) (ss : SessionState) : bool :=
  match f with
  | OutlineExists => truthy (default "" (scene_card ss))
  | DraftExists => truthy (default "" (draft ss))
  | ReportExists => truthy (default "" (report ss))
  | BibleExists => present (story_bible ss)
  end.

(** What can be seen of a run from outside the process: how it ended, the
    session it left, the page it drew and the time it slept. *)
Definition visible (r : outcome unit * state)
    : outcome unit * SessionState * list (container * element) * nat :=
  (fst r, session_state (snd r), page (snd r), slept (snd r)).

(** What an element is, without what it shows: the [st.*] function that
    drew it and its label or fixed text.  The texts that come from the
    session (a text area's value, the report, the bible) are left out. *)
Definition widget (e : element) : string * string :=
  match e with
  | PageConfig page_title _ => ("set_page_config", page_title)
  | Title body => ("title", body)
  | Markdown _ => ("markdown", "")
  | Header body => ("header", body)
  | Subheader body => ("subheader", body)
  | Caption body => ("caption", body)
  | Divider => ("divider", "")
  | TextInput lbl _ _ => ("text_input", lbl)
  | Selectbox lbl _ => ("selectbox", lbl)
  | SelectSlider lbl _ => ("select_slider", lbl)
  | TextArea lbl _ => ("text_area", lbl)
  | Button lbl => ("button", lbl)
  | Spinner text => ("spinner", text)
  | Info body => ("info", body)
  | Success body => ("success", body)
  | ExpanderBox title => ("expander", title)
  | Json _ => ("json", "")
  end.

Definition layout (pg : list (container * element))
    : list (container * (string * string)) :=
  map (fun ce => (fst ce, widget (snd ce))) pg.

(** The layout of the page a run leaves. *)
Definition drawn (u : user_input) (click : option button) (s : state)
    : list (container * (string * string)) :=
  layout (page (snd (run_script u click s))).

(** The parts of the layout.  Lines 10-34 and 99-102 are drawn in every run
    that reaches them, as are the heading of the right column (line 122) and
    the footer (lines 145-146); the three areas between them are the bodies
    of the [if]s at lines 111, 124 and 137. *)
Definition top_of_page : list (container * (string * string)) :=
  [ (Main, ("set_page_config", "AI Novelist Studio"));
    (Main, ("title", "📚 AI Novelist Studio"));
    (Main, ("markdown", ""));
    (Sidebar, ("header", "⚙️ Mission Config"));
    (Sidebar, ("text_input", "OpenAI API Key"));
    (Sidebar, ("divider", ""));
    (Sidebar, ("selectbox", "Genre"));
    (Sidebar, ("select_slider", "Tone Intensity"));
    (Sidebar, ("text_input", "Author Style"));
    (Sidebar, ("button", label ClearSessionMemory));
    (Col1, ("subheader", "Step 1: The Blueprint"));
    (Col1, ("text_area", "Enter Chapter Premise:"));
    (Col1, ("button", label GenerateOutline)) ].

Definition scene_card_area : list (container * (string * string)) :=
  [ (Col1, ("info", "Edit the outline below if needed, then click 'Write Draft'."));
    (Col1, ("text_area", "Scene Card (JSON/XML)"));
    (Col1, ("button", label WriteDraft)) ].

Definition manuscript_heading : list (container * (string * string)) :=
  [ (Col2, ("subheader", "Step 2: The Manuscript")) ].

Definition manuscript_area : list (container * (string * string)) :=
  [ (Col2, ("success", "Draft Generated!"));
    (Col2, ("text_area", "Final Prose"));
    (Col2, ("button", label AnalyzeEdit)) ].

Definition report_area : list (container * (string * string)) :=
  [ (Col2, ("expander", "View Editorial Report"));
    (Expander Col2 "View Editorial Report", ("markdown", ""));
    (Col2, ("expander", "View Story Bible (Memory)"));
    (Expander Col2 "View Story Bible (Memory)", ("json", "")) ].

Definition footer : list (container * (string * string)) :=
  [ (Main, ("markdown", ""));
    (Main, ("caption",
            "Powered by LangChain & Streamlit. Designed by The Prompt Engineer Master.")) ].

(** A flag gates the page when flipping it alone, everything else in the
    run being the same, changes the layout drawn. *)
Definition gates (f : flag) : Prop :=
  exists (u : user_input) (click : option button) (s1 s2 : state),
    (forall g : flag, g <> f ->
       flag_value g (session_state s1) = flag_value g (session_state s2)) /\
    drawn u click s1 <> drawn u click s2.

(** The state of a process that has just started, and a user who has typed
    nothing and left every choice at its first option. *)
Definition start_state : state :=
  {| session_state := empty_session; environ := ∅; llm := Unbound;
     slept := 0; page := [] |}.

Definition idle_input : user_input :=
  {| api_key := ""; genre := "Techno-Thriller"; tone := "Light";
     style := "Hemingway-esque brevity"; premise_input := "";
     edited_card := None |}.

(** [start_state] with given outline, draft and report. *)
Definition session_with (card text verdict : string) : state :=
  set_session
    (fun _ => {| story_bible := Some initial_bible; scene_card := Some card;
                 draft := Some text; report := Some verdict |})
    start_state.

(* ===================================================================== *)
(** * Strings *)
(* ===================================================================== *)

Lemma append_cons (ch : ascii) (a b : string) :
  String ch a ++ b = String ch (a ++ b).
Proof. reflexivity. Qed.

Lemma append_assoc (a b c : string) : (a ++ b) ++ c = a ++ b ++ c.
Proof.
  induction a as [|ch a IH].
  - reflexivity.
  - rewrite !append_cons. now rewrite IH.
Qed.

Lemma prefix_append (p rest : string) : String.prefix p (p ++ rest) = true.
Proof.
  induction p as [|ch p IH].
  - now destruct rest.
  - rewrite append_cons. simpl.
    destruct (ascii_dec ch ch) as [_|ne]; [exact IH | now destruct ne].
Qed.

Lemma prefix_append_r (p s t : string) :
  String.prefix p s = true -> String.prefix p (s ++ t) = true.
Proof.
  revert s; induction p as [|ch p IH]; intros s.
  - intros _. simpl. now destruct (s ++ t).
  - destruct s as [|ch' s]; [discriminate|].
    rewrite append_cons. simpl.
    destruct (ascii_dec ch ch'); [apply IH | discriminate].
Qed.

Lemma append_nil_r (s : string) : s ++ "" = s.
Proof.
  induction s as [|ch s IH].
  - reflexivity.
  - rewrite append_cons. now rewrite IH.
Qed.

Lemma truthy_outline_text (premise genre : string) :
  truthy (outline_text premise genre) = true.
Proof. reflexivity. Qed.

(* ===================================================================== *)
(** * The generation functions *)
(* ===================================================================== *)

Lemma generate_outline_eq (premise genre context : string) (s : state) :
  generate_outline premise genre context s
  = (Done (outline_text premise genre), add_slept 2 s).
Proof. reflexivity. Qed.

Lemma write_draft_eq (scene_card style : string) (s : state) :
  write_draft scene_card style s = (Done (draft_text scene_card style), add_slept 3 s).
Proof. reflexivity. Qed.

Lemma critique_draft_eq (draft genre : string) (s : state) :
  critique_draft draft genre s = (Done (report_text genre), add_slept 2 s).
Proof. reflexivity. Qed.

Lemma sleep_then_ret_pure {A : Type} (secs : nat) (a : A) (m : run A) :
  (forall s, m s = (Done a, add_slept secs s)) -> pure_but_sleep m secs.
Proof.
  intros Hm. exists a. intros s. rewrite Hm. simpl.
  repeat split.
Qed.

(** C1. [generate_outline], [write_draft] and [critique_draft] are pure
    string formatting but for the sleep: whatever the state they are called
    in, equal arguments give the same string; they end normally also where no
    model client exists; and they leave the session, the environment, [llm]
    and the page as they found them, only 2, 3 and 2 seconds later. *)
Theorem generation_functions_pure
    (premise genre context scene_card style draft : string) :
  pure_but_sleep (generate_outline premise genre context) 2 /\
  pure_but_sleep (write_draft scene_card style) 3 /\
  pure_but_sleep (critique_draft draft genre) 2.
Proof.
  split; [|split].
  - apply (sleep_then_ret_pure 2 (outline_text premise genre)).
    apply generate_outline_eq.
  - apply (sleep_then_ret_pure 3 (draft_text scene_card style)).
    apply write_draft_eq.
  - apply (sleep_then_ret_pure 2 (report_text genre)).
    apply critique_draft_eq.
Qed.

(** C6. The outline returned by [generate_outline] contains the premise it
    was given, character for character, whatever the genre, the context and
    the state of the call. *)
Theorem generate_outline_contains_premise
    (premise genre context : string) (s : state) :
  exists text : string,
    fst (generate_outline premise genre context s) = Done text /\
    contains premise text.
Proof.
  exists (outline_text premise genre). split; [reflexivity|].
  exists ("{" ++ LF ++
          "    " ++ DQ ++ "title" ++ DQ ++ ": " ++ DQ ++ "Mock Outline for " ++ genre ++ DQ ++ "," ++ LF ++
          "    " ++ DQ ++ "beats" ++ DQ ++ ": [" ++ LF ++
          "        " ++ DQ ++ "1. ").
  eexists. unfold outline_text.
  rewrite !append_assoc. reflexivity.
Qed.

(** C8. The report of [critique_draft] does not depend on the draft: two
    calls with the same genre return the same string and have the same effect
    for any two drafts, and the string is the fixed report with the genre
    filled in. *)
Theorem critique_draft_ignores_draft (d1 d2 genre : string) (s s' : state) :
  critique_draft d1 genre s = critique_draft d2 genre s /\
  fst (critique_draft d1 genre s) = fst (critique_draft d2 genre s') /\
  fst (critique_draft d1 genre s) = Done (report_text genre).
Proof.
  rewrite !critique_draft_eq. repeat split.
Qed.


(* ===================================================================== *)
(** * The phases of the script *)
(* ===================================================================== *)

Lemma truthy_true_iff (s : string) : truthy s = true <-> s <> "".
Proof. destruct s; simpl; split; congruence. Qed.

Lemma truthy_false_iff (s : string) : truthy s = false <-> s = "".
Proof. destruct s; simpl; split; congruence. Qed.

Lemma has_nul_truthy (s : string) : has_nul s = true -> truthy s = true.
Proof. destruct s; simpl; congruence. Qed.

(** Lines 40-50 always end normally and fill exactly the absent keys. *)
Lemma session_state_management_eq (s : state) :
  session_state_management s = (Done tt, set_session init_session s).
Proof.
  destruct s as [[[b|] [c|] [d|] [r|]] env l n pg]; reflexivity.
Qed.

Lemma init_session_id (ss : SessionState) : initialised ss -> init_session ss = ss.
Proof.
  destruct ss as [b c d r]. intros ([? Hb] & [? Hc] & [? Hd] & [? Hr]).
  simpl in *. subst. reflexivity.
Qed.

Lemma llm_setup_eq (key : string) (s : state) :
  llm_setup key s
  = (Done tt,
     set_llm (if truthy key
              then Obj {| model := "gpt-4-turbo"; temperature := Qmake 7 10 |}
              else PyNone) s).
Proof. unfold llm_setup, when. destruct (truthy key); reflexivity. Qed.

(** Symbolic execution of a run: unfold the script, and at each test on a
    string that is not known split on its truth value. *)
Ltac unfold_run :=
  cbv [run_script interact app_py sidebar llm_setup column1 column2
       generate_outline write_draft critique_draft
       bind ret when st_text_input st_selectbox st_select_slider st_text_area st_button
       show modify sleep st_rerun environ_set assign_llm session_clear session_has
       session_get session_set fresh set_session set_environ set_llm add_slept draw
       put_story_bible put_scene_card put_draft put_report empty_session init_session
       with_api_key pressed button_eqb present negb orb from_option id
       visible drawn layout widget List.map buttons expanders label
       Datatypes.app fst snd
       session_state environ llm slept page story_bible scene_card draft report
       characters summary api_key genre tone style premise_input edited_card].

Ltac step_run :=
  first [ rewrite session_state_management_eq
        | match goal with
          | |- context [has_nul "OPENAI_API_KEY"] =>
              change (has_nul "OPENAI_API_KEY") with false
          | |- context [has_nul ""] => change (has_nul "") with false
          | |- context [truthy ""] => change (truthy "") with false
          | H : has_nul ?x = _ |- context [has_nul ?x] => rewrite H
          | H : truthy ?x = _ |- context [truthy ?x] => rewrite H
          | |- context [truthy (outline_text ?p ?g)] =>
              rewrite (truthy_outline_text p g)
          | |- context [truthy ?x] => destruct (truthy x) eqn:?
          | |- context [has_nul ?x] => destruct (has_nul x) eqn:?
          end ];
  unfold_run.

Ltac open_state s :=
  destruct s as [[?bible ?card ?text ?verdict] ?env ?l ?n ?pg].

Ltac open_input u :=
  destruct u as [?key ?genre ?tone ?style ?premise ?edited].

Ltac run_cases u click s :=
  open_input u; open_state s; simpl in *;
  destruct click as [[]|];
  unfold_run; repeat step_run.

(** No lookup in the session fails. *)
Lemma run_script_no_key_error (u : user_input) (click : option button) (s : state)
    (key : string) :
  fst (run_script u click s) <> KeyError key.
Proof. run_cases u click s; discriminate. Qed.

(** A key with a NUL character: the run ends at line 22, before anything is
    read from or written to the session. *)
Lemma run_script_refused (u : user_input) (click : option button) (s : state) :
  has_nul (api_key u) = true ->
  fst (run_script u click s) = ValueError /\
  session_state (snd (run_script u click s)) = session_state s /\
  environ (snd (run_script u click s)) = environ s /\
  slept (snd (run_script u click s)) = slept s.
Proof.
  intros Hnul. pose proof (has_nul_truthy _ Hnul) as Htruthy.
  open_input u; open_state s; simpl in *.
  unfold_run; repeat step_run; repeat split.
Qed.

(** Any other key: the run gets past line 22. *)
Lemma run_script_accepted (u : user_input) (click : option button) (s : state) :
  has_nul (api_key u) = false -> fst (run_script u click s) <> ValueError.
Proof. intros Hnul. run_cases u click s; discriminate. Qed.

(** A run in which no button is pressed ends normally. *)
Lemma run_script_no_click_done (u : user_input) (s : state) :
  has_nul (api_key u) = false -> fst (run_script u None s) = Done tt.
Proof.
  intros Hnul. open_input u; open_state s; simpl in *.
  unfold_run; repeat step_run; reflexivity.
Qed.

(** An interaction settles on a page drawn to the end. *)
Lemma interact_done (u : user_input) (click : option button) (u' : user_input)
    (s : state) :
  has_nul (api_key u) = false -> has_nul (api_key u') = false ->
  fst (interact u click u' s) = Done tt.
Proof.
  intros Hu Hu'. unfold interact.
  destruct (run_script u click s) as [[[]| |key|] s1] eqn:E.
  - reflexivity.
  - now apply run_script_no_click_done.
  - exfalso. apply (run_script_no_key_error u click s key). now rewrite E.
  - exfalso. apply (run_script_accepted u click s Hu). now rewrite E.
Qed.

(** What a run does to the environment. *)
Lemma run_script_environ (u : user_input) (click : option button) (s : state) :
  environ (snd (run_script u click s))
  = if has_nul (api_key u) then environ s
    else if truthy (api_key u)
         then <["OPENAI_API_KEY" := api_key u]> (environ s)
         else environ s.
Proof.
  destruct (has_nul (api_key u)) eqn:Hnul.
  - now destruct (run_script_refused u click s Hnul) as (_ & _ & -> & _).
  - run_cases u click s; reflexivity.
Qed.

(** What a run binds [llm] to. *)
Lemma run_script_llm (u : user_input) (click : option button) (s : state) :
  has_nul (api_key u) = false ->
  llm (snd (run_script u click s))
  = if pressed click ClearSessionMemory then Unbound
    else if truthy (api_key u)
         then Obj {| model := "gpt-4-turbo"; temperature := Qmake 7 10 |}
         else PyNone.
Proof. intros Hnul. run_cases u click s; reflexivity. Qed.

(** The credential decides nothing but the environment and [llm]: a run with
    an empty API-key field and a run with any key the environment accepts,
    from states that differ in the environment and in [llm], end the same
    way, with the same session, the same page and the same time slept. *)
Lemma run_script_credential_blind (u : user_input) (click : option button)
    (s : state) (key : string) (env' : gmap string string) (l' : binding) :
  has_nul key = false ->
  visible (run_script (with_api_key "" u) click s)
  = visible (run_script (with_api_key key u) click
               (set_environ (fun _ => env') (set_llm l' s))).
Proof.
  intros Hnul. unfold visible. open_input u; open_state s.
  destruct click as [[]|]; destruct (truthy key) eqn:Hkey;
    unfold_run; rewrite ?Hkey; repeat step_run; reflexivity.
Qed.

(* ===================================================================== *)
(** * Credential and environment *)
(* ===================================================================== *)

(** C7, as the code has it.  A non-empty API-key field without a NUL
    character is written, as it is, to the environment variable
    OPENAI_API_KEY, and no other variable changes; with an empty field the
    environment is left as it was.  A key with a NUL character is refused:
    the run ends at line 22 with a [ValueError] and the environment is left
    as it was.  This holds for every run, whichever button started it. *)
Theorem api_key_written_to_environ (u : user_input) (click : option button)
    (s : state) :
  (api_key u <> "" -> has_nul (api_key u) = false ->
     environ (snd (run_script u click s))
     = <["OPENAI_API_KEY" := api_key u]> (environ s)) /\
  (api_key u = "" ->
     environ (snd (run_script u click s)) = environ s) /\
  (has_nul (api_key u) = true ->
     fst (run_script u click s) = ValueError /\
     environ (snd (run_script u click s)) = environ s).
Proof.
  split; [|split].
  - intros Hkey Hnul. rewrite run_script_environ, Hnul.
    apply truthy_true_iff in Hkey. now rewrite Hkey.
  - intros Hkey. rewrite run_script_environ, Hkey. reflexivity.
  - intros Hnul. destruct (run_script_refused u click s Hnul) as (H1 & _ & H2 & _).
    now split.
Qed.

(** C2. With an empty API-key field lines 54-56 leave [llm] bound to [None];
    in a whole run [llm] is then never a client object, and it is [None]
    whenever the run gets past the sidebar.  The three generation functions
    return the same result in any two states, whatever [llm] and the
    environment hold there, and a run with a credential the environment
    accepts ends as the run without one: same outcome, same session, same
    page. *)
Theorem missing_credential_leaves_llm_unset
    (u : user_input) (click : option button) (s s1 s2 : state)
    (key : string) (env' : gmap string string) (l' : binding)
    (premise genre context scene_card style draft : string) :
  llm (snd (llm_setup "" s)) = PyNone /\
  (api_key u = "" ->
     (forall client, llm (snd (run_script u click s)) <> Obj client) /\
     (click <> Some ClearSessionMemory -> llm (snd (run_script u click s)) = PyNone)) /\
  fst (generate_outline premise genre context s1)
    = fst (generate_outline premise genre context s2) /\
  fst (write_draft scene_card style s1) = fst (write_draft scene_card style s2) /\
  fst (critique_draft draft genre s1) = fst (critique_draft draft genre s2) /\
  (has_nul key = false ->
   visible (run_script (with_api_key "" u) click s)
   = visible (run_script (with_api_key key u) click
                (set_environ (fun _ => env') (set_llm l' s)))).
Proof.
  split; [reflexivity|]. split.
  - intros Hkey.
    assert (Hnul : has_nul (api_key u) = false) by now rewrite Hkey.
    rewrite (run_script_llm u click s Hnul), Hkey. simpl. split.
    + intros client. destruct (pressed click ClearSessionMemory); discriminate.
    + intros Hclick. destruct click as [[]|]; try reflexivity. now destruct Hclick.
  - rewrite !generate_outline_eq, !write_draft_eq, !critique_draft_eq.
    repeat (split; [reflexivity|]).
    apply run_script_credential_blind.
Qed.

(* ===================================================================== *)
(** * The session across runs *)
(* ===================================================================== *)

(** C4. Where the API-key field holds nothing the environment refuses (so
    that the run reaches the button), pressing "Clear Session Memory"
    empties [st.session_state] and asks for a rerun; at the end of that
    rerun the four session variables hold their first values again. *)
Theorem clear_session_memory_resets (u u' : user_input) (s : state) :
  has_nul (api_key u) = false ->
  has_nul (api_key u') = false ->
  fst (run_script u (Some ClearSessionMemory) s) = RerunException /\
  session_state (snd (run_script u (Some ClearSessionMemory) s)) = empty_session /\
  fst (interact u (Some ClearSessionMemory) u' s) = Done tt /\
  session_state (snd (interact u (Some ClearSessionMemory) u' s))
  = {| story_bible := Some {| characters := ∅; summary := "Start of the story." |};
       scene_card := Some "";
       draft := Some "";
       report := Some "" |}.
Proof.
  intros Hu Hu'. open_input u; open_input u'; open_state s. simpl in *.
  unfold_run; repeat step_run; repeat split.
Qed.

(** The run a press on "Generate Outline" starts: it sleeps, stores the new
    outline and asks for a rerun.  Of the session it found, lines 40-50 fill
    the absent keys and line 106 replaces [scene_card]; that is all. *)
Lemma generate_outline_click (u : user_input) (s : state) :
  has_nul (api_key u) = false ->
  fst (run_script u (Some GenerateOutline) s) = RerunException /\
  session_state (snd (run_script u (Some GenerateOutline) s))
  = put_scene_card (outline_text (premise_input u) (genre u))
      (init_session (session_state s)).
Proof.
  intros Hu. open_input u; open_state s. simpl in *.
  unfold_run; repeat step_run; split; reflexivity.
Qed.

(** The rerun that follows draws the scene card and stores what its text
    area returns, the outline unless the user has typed over it; a rerun
    that ends at line 22 leaves the outline as stored. *)
Lemma generate_outline_settled (u u' : user_input) (s : state) :
  has_nul (api_key u) = false ->
  session_state (snd (interact u (Some GenerateOutline) u' s))
  = put_scene_card
      (if has_nul (api_key u')
       then outline_text (premise_input u) (genre u)
       else default (outline_text (premise_input u) (genre u)) (edited_card u'))
      (init_session (session_state s)).
Proof.
  intros Hu. destruct u' as [key' genre' tone' style' premise' edited'].
  open_input u; open_state s. simpl in *.
  destruct (has_nul key') eqn:Hnul';
    [pose proof (has_nul_truthy _ Hnul') as Htruthy'|];
    unfold_run; repeat step_run; reflexivity.
Qed.

(** C9. In a session whose keys are set, and with nothing in the API-key
    field that the environment refuses, pressing "Generate Outline" stores
    the new outline in [scene_card] and asks for a rerun; [draft], [report]
    and [story_bible] are after the click, and still after the rerun, what
    they were before it.  (A button is pressed on a page that a run drew to
    the end, and such a run leaves every key set: [run_done_initialised].) *)
Theorem generate_outline_changes_only_scene_card (u u' : user_input) (s : state) :
  initialised (session_state s) ->
  has_nul (api_key u) = false ->
  let s1 := snd (run_script u (Some GenerateOutline) s) in
  let s2 := snd (interact u (Some GenerateOutline) u' s) in
  fst (run_script u (Some GenerateOutline) s) = RerunException /\
  session_state s1
  = put_scene_card (outline_text (premise_input u) (genre u)) (session_state s) /\
  (draft (session_state s1) = draft (session_state s) /\
   report (session_state s1) = report (session_state s) /\
   story_bible (session_state s1) = story_bible (session_state s)) /\
  (draft (session_state s2) = draft (session_state s) /\
   report (session_state s2) = report (session_state s) /\
   story_bible (session_state s2) = story_bible (session_state s)) /\
  (has_nul (api_key u') = false ->
   scene_card (session_state s2)
   = Some (default (outline_text (premise_input u) (genre u)) (edited_card u'))).
Proof.
  intros Hinit Hu. cbv zeta.
  destruct (generate_outline_click u s Hu) as [Hrerun Hclick].
  rewrite Hclick, (generate_outline_settled u u' s Hu), (init_session_id _ Hinit).
  repeat split; [exact Hrerun|].
  intros Hu'. now rewrite Hu'.
Qed.

(** ** The story bible *)

(** A run that ends normally leaves every key set. *)
Lemma run_done_initialised (u : user_input) (click : option button) (s : state) :
  fst (run_script u click s) = Done tt ->
  initialised (session_state (snd (run_script u click s))).
Proof.
  run_cases u click s; intros H; try discriminate H;
    repeat split; eexists; reflexivity.
Qed.

Lemma interact_initialised (u : user_input) (click : option button)
    (u' : user_input) (s : state) :
  has_nul (api_key u) = false -> has_nul (api_key u') = false ->
  initialised (session_state (snd (interact u click u' s))).
Proof.
  intros Hu Hu'.
  pose proof (interact_done u click u' s Hu Hu') as Hdone. revert Hdone.
  unfold interact.
  pose proof (run_done_initialised u click s) as H1.
  destruct (run_script u click s) as [[[]| |key|] s1]; simpl in *.
  - intros _. now apply H1.
  - intros H2. now apply run_done_initialised.
  - discriminate.
  - discriminate.
Qed.

Lemma interact_reachable (u : user_input) (click : option button)
    (u' : user_input) (s : state) :
  reachable s -> reachable (snd (interact u click u' s)).
Proof.
  intros Hs. unfold interact.
  destruct (run_script u click s) as [[[]| |key|] s1] eqn:E1; simpl.
  - exact (reach_run _ _ _ _ _ Hs E1).
  - destruct (run_script u' None s1) as [r2 s2] eqn:E2; simpl.
    exact (reach_run _ _ _ _ _ (reach_run _ _ _ _ _ Hs E1) E2).
  - exact (reach_run _ _ _ _ _ Hs E1).
  - exact (reach_run _ _ _ _ _ Hs E1).
Qed.

(** The only writes to the bible: a run keeps the bible it found (the first
    bible when there was none), with the same characters and with a summary
    that extends the old one. *)
Lemma run_script_bible (u : user_input) (click : option button) (s : state)
    (b' : StoryBible) :
  story_bible (session_state (snd (run_script u click s))) = Some b' ->
  characters b' = characters (default initial_bible (story_bible (session_state s))) /\
  exists rest : string,
    summary b' = summary (default initial_bible (story_bible (session_state s))) ++ rest.
Proof.
  run_cases u click s; intros H; try discriminate H;
    try (injection H as <-); try (subst; simpl);
    (split; [reflexivity|]);
    first [ now exists ""; rewrite append_nil_r | eexists; reflexivity ].
Qed.

(** C5. The bible's map of characters stays empty: it is empty wherever a
    reachable state has a bible, and every interaction started in a
    reachable state, with nothing in the API-key field that the environment
    refuses, settles with a bible whose map of characters is empty. *)
Theorem characters_never_populated (s : state) :
  reachable s ->
  (forall b, story_bible (session_state s) = Some b -> characters b = ∅) /\
  (forall u click u',
     has_nul (api_key u) = false -> has_nul (api_key u') = false ->
     exists b,
       story_bible (session_state (snd (interact u click u' s))) = Some b /\
       characters b = ∅).
Proof.
  assert (Hinv : forall t, reachable t ->
            forall b, story_bible (session_state t) = Some b -> characters b = ∅).
  { intros t Ht. induction Ht as [t Hstart | t t' u click r Ht IH Hrun].
    - intros b. rewrite Hstart. discriminate.
    - intros b Hb.
      assert (Hb' : story_bible (session_state (snd (run_script u click t))) = Some b)
        by now rewrite Hrun.
      apply run_script_bible in Hb' as [-> _].
      destruct (story_bible (session_state t)) as [b0|] eqn:E; simpl.
      + now apply IH.
      + reflexivity. }
  intros Hs. split; [now apply Hinv|].
  intros u click u' Hu Hu'.
  destruct (interact_initialised u click u' s Hu Hu') as ([b Hb] & _).
  exists b. split; [exact Hb|].
  apply (Hinv _ (interact_reachable u click u' s Hs)), Hb.
Qed.

(** C10. The summary of the bible always starts with "Start of the story.":
    wherever a reachable state has a bible, and in the bible every
    interaction started in a reachable state, with nothing in the API-key
    field that the environment refuses, settles with. *)
Theorem summary_keeps_its_prefix (s : state) :
  reachable s ->
  (forall b, story_bible (session_state s) = Some b ->
     String.prefix "Start of the story." (summary b) = true) /\
  (forall u click u',
     has_nul (api_key u) = false -> has_nul (api_key u') = false ->
     exists b,
       story_bible (session_state (snd (interact u click u' s))) = Some b /\
       String.prefix "Start of the story." (summary b) = true).
Proof.
  assert (Hinv : forall t, reachable t ->
            forall b, story_bible (session_state t) = Some b ->
            String.prefix "Start of the story." (summary b) = true).
  { intros t Ht. induction Ht as [t Hstart | t t' u click r Ht IH Hrun].
    - intros b. rewrite Hstart. discriminate.
    - intros b Hb.
      assert (Hb' : story_bible (session_state (snd (run_script u click t))) = Some b)
        by now rewrite Hrun.
      apply run_script_bible in Hb' as [_ [rest ->]].
      apply prefix_append_r.
      destruct (story_bible (session_state t)) as [b0|] eqn:E; simpl.
      + now apply IH.
      + reflexivity. }
  intros Hs. split; [now apply Hinv|].
  intros u click u' Hu Hu'.
  destruct (interact_initialised u click u' s Hu Hu') as ([b Hb] & _).
  exists b. split; [exact Hb|].
  apply (Hinv _ (interact_reachable u click u' s Hs)), Hb.
Qed.

(* ===================================================================== *)
(** * What is drawn *)
(* ===================================================================== *)

(** The layout of a run that ends normally: what is always drawn, and
    between it the three areas, each there exactly when its flag is up. *)
Lemma drawn_done (u : user_input) (click : option button) (s : state) :
  fst (run_script u click s) = Done tt ->
  drawn u click s
  = (top_of_page
       ++ (if flag_value OutlineExists (session_state s) then scene_card_area else [])
       ++ manuscript_heading
       ++ (if flag_value DraftExists (session_state s) then manuscript_area else [])
       ++ (if flag_value ReportExists (session_state s) then report_area else [])
       ++ footer)%list.
Proof.
  open_input u; open_state s. cbv [flag_value session_state scene_card draft report].
  destruct click as [[]|]; unfold_run; repeat step_run;
    intros H; try discriminate H; reflexivity.
Qed.

(** Two sessions with the same first three flags get the same layout, in
    every run; the bible does not enter. *)
Lemma drawn_determined (u : user_input) (click : option button) (s1 s2 : state) :
  flag_value OutlineExists (session_state s1)
    = flag_value OutlineExists (session_state s2) ->
  flag_value DraftExists (session_state s1)
    = flag_value DraftExists (session_state s2) ->
  flag_value ReportExists (session_state s1)
    = flag_value ReportExists (session_state s2) ->
  drawn u click s1 = drawn u click s2.
Proof.
  open_input u; open_state s1; open_state s2.
  cbv [flag_value session_state scene_card draft report from_option id].
  intros H1 H2 H3.
  destruct click as [[]|]; unfold_run; repeat step_run; reflexivity.
Qed.

Lemma outline_flag_gates : gates OutlineExists.
Proof.
  exists idle_input, None, (session_with "x" "" ""), (session_with "" "" "").
  split.
  - intros [] Hg; try reflexivity. now destruct Hg.
  - vm_compute. discriminate.
Qed.

Lemma draft_flag_gates : gates DraftExists.
Proof.
  exists idle_input, None, (session_with "" "x" ""), (session_with "" "" "").
  split.
  - intros [] Hg; try reflexivity. now destruct Hg.
  - vm_compute. discriminate.
Qed.

Lemma report_flag_gates : gates ReportExists.
Proof.
  exists idle_input, None, (session_with "" "" "x"), (session_with "" "" "").
  split.
  - intros [] Hg; try reflexivity. now destruct Hg.
  - vm_compute. discriminate.
Qed.

Lemma bible_flag_gates_nothing : ~ gates BibleExists.
Proof.
  intros (u & click & s1 & s2 & Hsame & Hdiff).
  apply Hdiff, drawn_determined; apply Hsame; discriminate.
Qed.

(** C3, as the code has it.  What is drawn conditionally is decided by three
    truth tests on the session.  In a run that ends normally the layout is
    the fixed top of the page, the heading of the right column and the
    footer, and between them: the scene-card editor (hint, text area and
    "Write Draft" button) exactly when [scene_card] is not empty, the
    manuscript area (notice, text area and "Analyze & Edit" button) exactly
    when [draft] is not empty, and the two expanders with the report and the
    bible (no button) exactly when [report] is not empty.  In every run the
    layout is the same for two sessions that agree on these three flags.
    Each of the three changes the layout when flipped alone; the presence
    test on the story bible changes nothing of it. *)
Theorem rendering_gated_by_three_flags :
  (forall u click s,
     fst (run_script u click s) = Done tt ->
     drawn u click s
     = (top_of_page
          ++ (if flag_value OutlineExists (session_state s) then scene_card_area else [])
          ++ manuscript_heading
          ++ (if flag_value DraftExists (session_state s) then manuscript_area else [])
          ++ (if flag_value ReportExists (session_state s) then report_area else [])
          ++ footer)%list) /\
  (forall u click s1 s2,
     (forall g, g <> BibleExists ->
        flag_value g (session_state s1) = flag_value g (session_state s2)) ->
     drawn u click s1 = drawn u click s2) /\
  gates OutlineExists /\ gates DraftExists /\ gates ReportExists /\
  ~ gates BibleExists.
Proof.
  split; [exact drawn_done|]. split.
  - intros u click s1 s2 Hsame.
    apply drawn_determined; apply Hsame; discriminate.
  - auto using outline_flag_gates, draft_flag_gates, report_flag_gates,
      bible_flag_gates_nothing.
Qed.

End App.

(* ===================================================================== *)
(** * The theorems at work on a sample session *)
(* ===================================================================== *)

(** [json.dumps] for a bible without characters whose summary needs no
    escaping; it stands for Python's function in the runs below. *)
Definition dumps_plain (b : StoryBible) : string :=
  "{" ++ DQ ++ "characters" ++ DQ ++ ": {}, "
      ++ DQ ++ "summary" ++ DQ ++ ": " ++ DQ ++ summary b ++ DQ ++ "}".

(** A user with a key and a premise. *)
Definition jinx_input : user_input :=
  {| api_key := "sk-test"; genre := "Cyberpunk"; tone := "Gritty";
     style := "Hemingway-esque brevity";
     premise_input := "Jinx hacks the mainframe but triggers a trap.";
     edited_card := None |}.

(** The same user with a NUL character in the key field: a, NUL, b. *)
Definition nul_key : string := String "a" (String "000" (String "b" EmptyString)).

Definition nul_input : user_input := with_api_key nul_key jinx_input.

(** A session that still holds the draft and the report of an earlier
    chapter. *)
Definition stale_state : state := session_with "" "old draft" "old report".

(** The whole pipeline once: first page, outline, draft, critique. *)
Definition first_page : state :=
  snd (run_script dumps_plain jinx_input None start_state).

Definition outlined : state :=
  snd (interact dumps_plain jinx_input (Some GenerateOutline) jinx_input first_page).

Definition drafted : state :=
  snd (interact dumps_plain jinx_input (Some WriteDraft) jinx_input outlined).

Definition critiqued : state :=
  snd (interact dumps_plain jinx_input (Some AnalyzeEdit) jinx_input drafted).

Lemma critiqued_reachable : reachable dumps_plain critiqued.
Proof.
  unfold critiqued, drafted, outlined, first_page.
  do 3 apply interact_reachable.
  apply (reach_run dumps_plain start_state _ jinx_input None
           (fst (run_script dumps_plain jinx_input None start_state))).
  - apply reach_start. reflexivity.
  - apply surjective_pairing.
Defined.

Example critiqued_summary :
  story_bible (session_state critiqued)
  = Some {| characters := ∅;
            summary := "Start of the story. -> Processed premise: "
                       ++ "Jinx hacks the mainframe but triggers a trap." |}.
Proof. vm_compute. reflexivity. Qed.

Lemma jinx_key_accepted : has_nul (api_key jinx_input) = false.
Proof. reflexivity. Defined.

Lemma idle_key_accepted : has_nul (api_key idle_input) = false.
Proof. reflexivity. Defined.

Lemma api_key_written_to_environ_witness :
  (api_key jinx_input <> "" /\ has_nul (api_key jinx_input) = false /\
   environ (snd (run_script dumps_plain jinx_input None start_state))
   = <["OPENAI_API_KEY" := "sk-test"]> ∅) /\
  (api_key idle_input = "" /\
   environ (snd (run_script dumps_plain idle_input None start_state)) = ∅) /\
  (has_nul (api_key nul_input) = true /\
   fst (run_script dumps_plain nul_input None start_state) = ValueError /\
   environ (snd (run_script dumps_plain nul_input None start_state)) = ∅).
Proof.
  assert (Hkey : api_key jinx_input <> "") by (simpl; discriminate).
  assert (Hnone : api_key idle_input = "") by reflexivity.
  assert (Hnul : has_nul (api_key nul_input) = true) by reflexivity.
  split; [|split].
  - split; [exact Hkey|]. split; [exact jinx_key_accepted|].
    exact (proj1 (api_key_written_to_environ dumps_plain jinx_input None start_state)
             Hkey jinx_key_accepted).
  - split; [exact Hnone|].
    exact (proj1 (proj2 (api_key_written_to_environ dumps_plain idle_input None
                           start_state)) Hnone).
  - split; [exact Hnul|].
    exact (proj2 (proj2 (api_key_written_to_environ dumps_plain nul_input None
                           start_state)) Hnul).
Defined.

(** C7, as the claim states it, fails: not every non-empty key is written.
    The key a-NUL-b is not empty, and the run with it ends in a [ValueError]
    with OPENAI_API_KEY still unset. *)
Lemma key_with_nul_is_refused :
  ~ (forall (u : user_input) (click : option button) (s : state),
       api_key u <> "" ->
       environ (snd (run_script dumps_plain u click s))
       = <["OPENAI_API_KEY" := api_key u]> (environ s)) /\
  api_key nul_input <> "" /\
  fst (run_script dumps_plain nul_input None start_state) = ValueError /\
  environ (snd (run_script dumps_plain nul_input None start_state))
    !! "OPENAI_API_KEY" = None.
Proof.
  assert (Hkey : api_key nul_input <> "") by (simpl; discriminate).
  assert (Hunset : environ (snd (run_script dumps_plain nul_input None start_state))
                     !! "OPENAI_API_KEY" = None) by (vm_compute; reflexivity).
  split; [|split; [exact Hkey | split; [vm_compute; reflexivity | exact Hunset]]].
  intros Hall. specialize (Hall nul_input None start_state Hkey).
  rewrite Hall, lookup_insert_eq in Hunset. discriminate.
Qed.

Lemma missing_credential_leaves_llm_unset_witness :
  api_key idle_input = "" /\
  llm (snd (run_script dumps_plain idle_input (Some GenerateOutline) stale_state)) = PyNone /\
  has_nul "sk-test" = false /\
  visible (run_script dumps_plain (with_api_key "" idle_input) (Some GenerateOutline)
             stale_state)
  = visible (run_script dumps_plain (with_api_key "sk-test" idle_input)
               (Some GenerateOutline)
               (set_environ (fun _ => ∅) (set_llm PyNone stale_state))).
Proof.
  assert (Hnone : api_key idle_input = "") by reflexivity.
  assert (Hnul : has_nul "sk-test" = false) by reflexivity.
  destruct (missing_credential_leaves_llm_unset dumps_plain
              idle_input (Some GenerateOutline) stale_state start_state stale_state
              "sk-test" ∅ PyNone "" "" "" "" "" "")
    as (_ & Hrun & _ & _ & _ & Hblind).
  split; [exact Hnone|]. split; [|split; [exact Hnul | exact (Hblind Hnul)]].
  apply (Hrun Hnone). discriminate.
Defined.

Lemma clear_session_memory_resets_witness :
  has_nul (api_key jinx_input) = false /\
  has_nul (api_key idle_input) = false /\
  session_state
    (snd (interact dumps_plain jinx_input (Some ClearSessionMemory) idle_input critiqued))
  = {| story_bible := Some {| characters := ∅; summary := "Start of the story." |};
       scene_card := Some "";
       draft := Some "";
       report := Some "" |}.
Proof.
  split; [exact jinx_key_accepted|]. split; [exact idle_key_accepted|].
  exact (proj2 (proj2 (proj2
           (clear_session_memory_resets dumps_plain jinx_input idle_input critiqued
              jinx_key_accepted idle_key_accepted)))).
Defined.

Lemma generate_outline_changes_only_scene_card_witness :
  initialised (session_state stale_state) /\
  has_nul (api_key jinx_input) = false /\
  draft (session_state
           (snd (interact dumps_plain jinx_input (Some GenerateOutline) jinx_input
                   stale_state)))
  = Some "old draft" /\
  report (session_state
            (snd (interact dumps_plain jinx_input (Some GenerateOutline) jinx_input
                    stale_state)))
  = Some "old report".
Proof.
  assert (Hinit : initialised (session_state stale_state))
    by (repeat split; eexists; reflexivity).
  split; [exact Hinit|]. split; [exact jinx_key_accepted|].
  destruct (generate_outline_changes_only_scene_card dumps_plain
              jinx_input jinx_input stale_state Hinit jinx_key_accepted)
    as (_ & _ & _ & (Hdraft & Hreport & _) & _).
  split; [exact Hdraft | exact Hreport].
Defined.

Lemma characters_never_populated_witness :
  reachable dumps_plain critiqued /\
  exists b, story_bible (session_state critiqued) = Some b /\ characters b = ∅.
Proof.
  split; [exact critiqued_reachable|].
  eexists. split; [exact critiqued_summary|].
  exact (proj1 (characters_never_populated dumps_plain critiqued critiqued_reachable)
           _ critiqued_summary).
Defined.

Lemma summary_keeps_its_prefix_witness :
  reachable dumps_plain critiqued /\
  exists b, story_bible (session_state critiqued) = Some b /\
            String.prefix "Start of the story." (summary b) = true.
Proof.
  split; [exact critiqued_reachable|].
  eexists. split; [exact critiqued_summary|].
  exact (proj1 (summary_keeps_its_prefix dumps_plain critiqued critiqued_reachable)
           _ critiqued_summary).
Defined.

Lemma rendering_gated_by_three_flags_witness :
  fst (run_script dumps_plain jinx_input None critiqued) = Done tt /\
  drawn dumps_plain jinx_input None critiqued
  = (top_of_page ++ scene_card_area ++ manuscript_heading ++ manuscript_area
       ++ report_area ++ footer)%list.
Proof.
  assert (Hdone : fst (run_script dumps_plain jinx_input None critiqued) = Done tt)
    by (vm_compute; reflexivity).
  split; [exact Hdone|].
  rewrite (proj1 (rendering_gated_by_three_flags dumps_plain)
             jinx_input None critiqued Hdone).
  vm_compute. reflexivity.
Defined.

(** C3, as the claim states it, fails: not all four flags gate the page.  The
    presence of the story bible changes nothing of what is drawn; a session
    without a bible and a session with one get the same layout. *)
Lemma not_all_four_flags_gate :
  ~ (forall f : flag, gates dumps_plain f) /\
  flag_value BibleExists (session_state start_state) = false /\
  flag_value BibleExists (session_state (session_with "" "" "")) = true /\
  drawn dumps_plain idle_input None start_state
  = drawn dumps_plain idle_input None (session_with "" "" "").
Proof.
  split.
  - intros Hall. exact (bible_flag_gates_nothing dumps_plain (Hall BibleExists)).
  - repeat split.
Qed.

(* ===================================================================== *)
(** * The handlers, one by one *)
(* ===================================================================== *)


(** The handler a press reaches.  The two buttons that are always drawn
    reach theirs; "Write Draft" and "Analyze & Edit" do so only where
    lines 111 and 124 let their area be drawn. *)
Definition fired (click : option button) (ss : SessionState) : option button :=
  match click with
  | Some WriteDraft =>
      if flag_value OutlineExists ss then Some WriteDraft else None
  | Some AnalyzeEdit =>
      if flag_value DraftExists ss then Some AnalyzeEdit else None
  | other => other
  end.

(** The seconds a handler sleeps (lines 63, 75 and 87). *)
Definition delay (handler : option button) : nat :=
  match handler with
  | Some GenerateOutline => 2
  | Some WriteDraft => 3
  | Some AnalyzeEdit => 2
  | _ => 0
  end.

(** Line 133 applied to a bible. *)
Definition archive (premise : string) (b : StoryBible) : StoryBible :=
  {| characters := characters b;
     summary := summary b ++ " -> Processed premise: " ++ premise |}.

(** What a row of analyses appends to the summary. *)
Fixpoint processed (premises : list string) : string :=
  match premises with
  | [] => ""
  | p :: rest => " -> Processed premise: " ++ p ++ processed rest
  end.

(** The same input with another position of the tone slider. *)
Definition with_tone (t : string) (u : user_input) : user_input :=
  {| api_key := api_key u; genre := genre u; tone := t; style := style u;
     premise_input := premise_input u; edited_card := edited_card u |}.

Lemma truthy_draft_text (scene_card style : string) :
  truthy (draft_text scene_card style) = true.
Proof. reflexivity. Qed.

Lemma truthy_report_text (genre : string) : truthy (report_text genre) = true.
Proof. reflexivity. Qed.

(** Symbolic execution, as before, with the flags of the statement unfolded
    to the tests of the script. *)
Ltac exec_unfold :=
  cbv [run_script interact app_py sidebar llm_setup column1 column2
       generate_outline write_draft critique_draft
       bind ret when st_text_input st_selectbox st_select_slider st_text_area st_button
       show modify sleep st_rerun environ_set assign_llm session_clear session_has
       session_get session_set fresh set_session set_environ set_llm add_slept draw
       put_story_bible put_scene_card put_draft put_report empty_session init_session
       with_api_key with_tone fired delay archive flag_value
       pressed button_eqb present negb orb from_option id
       visible drawn layout widget List.map buttons expanders label
       Datatypes.app fst snd
       session_state environ llm slept page story_bible scene_card draft report
       characters summary api_key genre tone style premise_input edited_card].

Ltac exec_step :=
  first [ rewrite session_state_management_eq
        | match goal with
          | |- context [has_nul "OPENAI_API_KEY"] =>
              change (has_nul "OPENAI_API_KEY") with false
          | |- context [has_nul ""] => change (has_nul "") with false
          | |- context [truthy ""] => change (truthy "") with false
          | H : has_nul ?x = _ |- context [has_nul ?x] => rewrite H
          | H : truthy ?x = _ |- context [truthy ?x] => rewrite H
          | |- context [truthy (outline_text ?p ?g)] =>
              rewrite (truthy_outline_text p g)
          | |- context [truthy (draft_text ?c ?st)] =>
              rewrite (truthy_draft_text c st)
          | |- context [truthy (report_text ?g)] =>
              rewrite (truthy_report_text g)
          | |- context [truthy ?x] => destruct (truthy x) eqn:?
          | |- context [has_nul ?x] => destruct (has_nul x) eqn:?
          end ];
  exec_unfold.

Ltac exec := exec_unfold; repeat exec_step.

Ltac open_run u s :=
  destruct u as [?key ?genre ?tone ?style ?premise ?edited];
  destruct s as [[?bible ?card ?text ?verdict] ?env ?l ?n ?pg].

(** Split on whether a key is refused; a refused key is not empty. *)
Ltac split_nul k :=
  let Hnul := fresh "Hnul" in
  let Htruthy := fresh "Htruthy" in
  destruct (has_nul k) eqn:Hnul;
  [ pose proof (has_nul_truthy _ Hnul) as Htruthy | ].

Section Handlers.

Variable json_dumps : StoryBible -> string.

(** One "Analyze & Edit" interaction per input, in order; the widgets hold
    the same contents during each rerun. *)
Fixpoint analyse_all (us : list user_input) (s : state) : state :=
  match us with
  | [] => s
  | u :: rest => analyse_all rest (snd (interact json_dumps u (Some AnalyzeEdit) u s))
  end.

(** How a run ends. *)
Lemma run_script_outcome (u : user_input) (click : option button) (s : state) :
  fst (run_script json_dumps u click s)
  = if has_nul (api_key u) then ValueError
    else match fired click (session_state s) with
         | Some _ => RerunException
         | None => Done tt
         end.
Proof.
  open_run u s. simpl. split_nul key; destruct click as [[]|]; exec; reflexivity.
Qed.

(** How long a run sleeps. *)
Lemma run_script_slept (u : user_input) (click : option button) (s : state) :
  slept (snd (run_script json_dumps u click s))
  = slept s + (if has_nul (api_key u) then 0
               else delay (fired click (session_state s))).
Proof.
  open_run u s. simpl. split_nul key; destruct click as [[]|]; exec; simpl;
    rewrite ?Nat.add_0_r; reflexivity.
Qed.

(** Only the session and the time slept enter what can be seen of a run:
    the page and [llm] are started afresh, the environment is only written. *)
Lemma visible_ext (u : user_input) (click : option button) (s1 s2 : state) :
  session_state s1 = session_state s2 ->
  slept s1 = slept s2 ->
  visible (run_script json_dumps u click s1) = visible (run_script json_dumps u click s2).
Proof.
  destruct s1 as [ss1 env1 l1 n1 pg1], s2 as [ss2 env2 l2 n2 pg2]. simpl.
  intros -> ->.
  destruct (has_nul (api_key u)) eqn:Hnul.
  - pose proof (has_nul_truthy _ Hnul) as Htruthy.
    destruct u as [key genre tone style premise edited]. simpl in *.
    exec; reflexivity.
  - pose (start := {| session_state := ss2; environ := ∅; llm := Unbound;
                      slept := n2; page := [] |}).
    pose proof (run_script_credential_blind json_dumps u click start (api_key u)
                  env1 l1 Hnul) as H1.
    pose proof (run_script_credential_blind json_dumps u click start (api_key u)
                  env2 l2 Hnul) as H2.
    destruct u as [key genre tone style premise edited].
    etransitivity; [symmetry; exact H1 | exact H2].
Qed.

(** ** How a run ends *)

(** X1. How a run ends.  With a NUL character in the API-key field it ends
    at line 22 in a [ValueError]; otherwise in a rerun exactly when a handler
    is reached, and normally if none is.  No run fails on a session lookup,
    whatever session it starts from, and an interaction whose key fields the
    environment accepts settles on a page drawn to the end. *)
Theorem run_ends_in_rerun_or_done (u u' : user_input) (click : option button)
    (s : state) :
  fst (run_script json_dumps u click s)
  = (if has_nul (api_key u) then ValueError
     else match fired click (session_state s) with
          | Some _ => RerunException
          | None => Done tt
          end) /\
  (forall key, fst (run_script json_dumps u click s) <> KeyError key) /\
  (has_nul (api_key u) = false -> has_nul (api_key u') = false ->
   fst (interact json_dumps u click u' s) = Done tt).
Proof.
  split; [apply run_script_outcome|]. split.
  - intros key. rewrite run_script_outcome.
    destruct (has_nul (api_key u)); [discriminate|].
    destruct (fired click (session_state s)); discriminate.
  - apply interact_done.
Qed.

(** X2. A run sleeps for the handler it reaches and for nothing else: two
    seconds for an outline or a critique, three for a draft, none for a
    reset or a plain redraw, and none when it ends at line 22 on a key with
    a NUL character; the rerun adds nothing. *)
Theorem interaction_sleeps_for_its_handler (u u' : user_input)
    (click : option button) (s : state) :
  slept (snd (run_script json_dumps u click s))
  = slept s + (if has_nul (api_key u) then 0
               else delay (fired click (session_state s))) /\
  slept (snd (interact json_dumps u click u' s))
  = slept s + (if has_nul (api_key u) then 0
               else delay (fired click (session_state s))) /\
  slept (snd (interact json_dumps u click u' s)) <= slept s + 3.
Proof.
  assert (Hint : slept (snd (interact json_dumps u click u' s))
                 = slept s + (if has_nul (api_key u) then 0
                              else delay (fired click (session_state s)))).
  { unfold interact.
    pose proof (run_script_slept u click s) as Hslept.
    destruct (run_script json_dumps u click s) as [[[]| |key|] s1]; simpl in *;
      try exact Hslept.
    rewrite run_script_slept, Hslept.
    destruct (has_nul (api_key u')); simpl; apply Nat.add_0_r. }
  split; [apply run_script_slept|]. split; [exact Hint|].
  rewrite Hint.
  destruct (has_nul (api_key u)); [lia|].
  destruct (fired click (session_state s)) as [[]|]; simpl; lia.
Qed.

(** X3. Lines 40-50 end normally, leave every key set, keep the value of
    every key that was present (an empty string too) and give the absent
    ones their first value; running them again changes nothing. *)
Theorem session_state_management_fills_absent_keys (s : state) :
  let s' := snd (session_state_management s) in
  fst (session_state_management s) = Done tt /\
  initialised (session_state s') /\
  story_bible (session_state s')
    = Some (default initial_bible (story_bible (session_state s))) /\
  scene_card (session_state s') = Some (default "" (scene_card (session_state s))) /\
  draft (session_state s') = Some (default "" (draft (session_state s))) /\
  report (session_state s') = Some (default "" (report (session_state s))) /\
  (environ s' = environ s /\ llm s' = llm s /\ slept s' = slept s /\ page s' = page s) /\
  session_state_management s' = (Done tt, s').
Proof.
  cbv zeta. rewrite session_state_management_eq. simpl.
  destruct s as [[b c d r] env l n pg].
  repeat split; try (eexists; reflexivity).
Qed.

(** ** The presses *)

Ltac open_initialised H u s :=
  destruct H as ([?b ?Hb] & [?c ?Hc] & [?d ?Hd] & [?r ?Hr]);
  open_run u s; simpl in *; subst; simplify_eq.

(** X4. "Write Draft", pressed where the scene card is not empty and the
    API-key field holds nothing the environment refuses: the run stores what
    the text area returns as the scene card, writes the draft from it in the
    author's style, sleeps three seconds and asks for a rerun.  The report
    and the story bible are not touched, by the run or by the rerun.  The
    draft is written from the text area even when the user has emptied it. *)
Theorem write_draft_press (u u' : user_input) (s : state) (card : string) :
  initialised (session_state s) ->
  scene_card (session_state s) = Some card ->
  truthy card = true ->
  has_nul (api_key u) = false ->
  let e := default card (edited_card u) in
  let s1 := snd (run_script json_dumps u (Some WriteDraft) s) in
  let s2 := snd (interact json_dumps u (Some WriteDraft) u' s) in
  fst (run_script json_dumps u (Some WriteDraft) s) = RerunException /\
  session_state s1
  = put_draft (draft_text e (style u)) (put_scene_card e (session_state s)) /\
  slept s1 = slept s + 3 /\
  draft (session_state s2) = Some (draft_text e (style u)) /\
  report (session_state s2) = report (session_state s) /\
  story_bible (session_state s2) = story_bible (session_state s).
Proof.
  intros Hinit Hcard Htruthy Hu.
  destruct u' as [key' genre' tone' style' premise' edited'].
  open_initialised Hinit u s. cbv zeta.
  repeat match goal with |- _ /\ _ => split end; exec; reflexivity.
Qed.

(** X5. "Analyze & Edit", pressed where the draft is not empty and the
    API-key field holds nothing the environment refuses: the run stores the
    report for the genre chosen, appends the premise now in the premise
    field to the summary of the bible, sleeps two seconds and asks for a
    rerun.  The draft is not touched, and the scene card is what a run
    without press would have left. *)
Theorem analyze_press (u u' : user_input) (s : state) (b : StoryBible)
    (text : string) :
  initialised (session_state s) ->
  story_bible (session_state s) = Some b ->
  draft (session_state s) = Some text ->
  truthy text = true ->
  has_nul (api_key u) = false ->
  let s1 := snd (run_script json_dumps u (Some AnalyzeEdit) s) in
  let s2 := snd (interact json_dumps u (Some AnalyzeEdit) u' s) in
  fst (run_script json_dumps u (Some AnalyzeEdit) s) = RerunException /\
  report (session_state s1) = Some (report_text (genre u)) /\
  story_bible (session_state s1) = Some (archive (premise_input u) b) /\
  draft (session_state s1) = Some text /\
  scene_card (session_state s1)
    = scene_card (session_state (snd (run_script json_dumps u None s))) /\
  slept s1 = slept s + 2 /\
  report (session_state s2) = Some (report_text (genre u)) /\
  story_bible (session_state s2) = Some (archive (premise_input u) b) /\
  draft (session_state s2) = Some text.
Proof.
  intros Hinit Hbible Hdraft Htruthy Hu.
  destruct u' as [key' genre' tone' style' premise' edited'].
  open_initialised Hinit u s. cbv zeta.
  repeat match goal with |- _ /\ _ => split end; exec; reflexivity.
Qed.

(** X6. A press that arrives for a button whose area is no longer drawn is
    no press: with an empty scene card "Write Draft", and with an empty
    draft "Analyze & Edit", give the very run that no press gives. *)
Theorem press_on_absent_button (u : user_input) (s : state) :
  (flag_value OutlineExists (session_state s) = false ->
   run_script json_dumps u (Some WriteDraft) s = run_script json_dumps u None s) /\
  (flag_value DraftExists (session_state s) = false ->
   run_script json_dumps u (Some AnalyzeEdit) s = run_script json_dumps u None s).
Proof.
  open_run u s. cbv [flag_value session_state scene_card draft from_option id].
  split; intros Hflag; exec; reflexivity.
Qed.

(** X7. A run without press, in a session whose keys are set and with
    nothing in the API-key field that the environment refuses: it ends
    normally without sleeping and changes nothing of the session but the
    scene card, which becomes what its text area returns where that area is
    drawn; where it is not, the edit is ignored. *)
Theorem run_without_press (u : user_input) (s : state) (card : string) :
  initialised (session_state s) ->
  scene_card (session_state s) = Some card ->
  has_nul (api_key u) = false ->
  let s1 := snd (run_script json_dumps u None s) in
  fst (run_script json_dumps u None s) = Done tt /\
  scene_card (session_state s1)
    = Some (if truthy card then default card (edited_card u) else card) /\
  draft (session_state s1) = draft (session_state s) /\
  report (session_state s1) = report (session_state s) /\
  story_bible (session_state s1) = story_bible (session_state s) /\
  slept s1 = slept s.
Proof.
  intros Hinit Hcard Hu. open_initialised Hinit u s. cbv zeta.
  repeat match goal with |- _ /\ _ => split end; exec; reflexivity.
Qed.

(** X8. Redrawing is idempotent: in a session whose keys are set, a run
    without press and without edit leaves the session as it was, and the
    next such run ends the same way with the same page. *)
Theorem idle_run_is_idempotent (u : user_input) (s : state) :
  initialised (session_state s) ->
  edited_card u = None ->
  let r := run_script json_dumps u None s in
  session_state (snd r) = session_state s /\
  visible (run_script json_dumps u None (snd r)) = visible r.
Proof.
  intros Hinit Hedit. cbv zeta.
  assert (Hsame : session_state (snd (run_script json_dumps u None s)) = session_state s
                  /\ slept (snd (run_script json_dumps u None s)) = slept s).
  { open_initialised Hinit u s. exec; split; reflexivity. }
  destruct Hsame as [Hss Hslept]. split; [exact Hss|].
  now apply visible_ext.
Qed.

(** ** The credential in the environment *)

Lemma clear_interaction_environ (u u' : user_input) (s : state) :
  has_nul (api_key u) = false ->
  api_key u' = "" ->
  environ (snd (interact json_dumps u (Some ClearSessionMemory) u' s))
  = (if truthy (api_key u) then insert "OPENAI_API_KEY" (api_key u) else id)
      (environ s).
Proof.
  intros Hu Hempty. destruct u' as [key' genre' tone' style' premise' edited'].
  open_run u s. simpl in *. subst key'.
  exec; reflexivity.
Qed.

(** X9. The script never removes a variable from the environment and writes
    no variable but OPENAI_API_KEY.  In particular "Clear Session Memory"
    does not clear the credential: after a reset during which the key field
    held a key the environment accepts, and a rerun in which it is empty,
    the variable still holds the key. *)
Theorem credential_outlives_the_session (u u' : user_input)
    (click : option button) (s : state) (name : string) :
  (is_Some (environ s !! name) ->
   is_Some (environ (snd (run_script json_dumps u click s)) !! name)) /\
  (name <> "OPENAI_API_KEY" ->
   environ (snd (run_script json_dumps u click s)) !! name = environ s !! name) /\
  (api_key u <> "" -> has_nul (api_key u) = false -> api_key u' = "" ->
   environ (snd (interact json_dumps u (Some ClearSessionMemory) u' s))
     !! "OPENAI_API_KEY" = Some (api_key u)).
Proof.
  rewrite run_script_environ. split; [|split].
  - intros Hsome. destruct (has_nul (api_key u)); [exact Hsome|].
    destruct (truthy (api_key u)); [|exact Hsome].
    destruct (decide (name = "OPENAI_API_KEY")) as [->|Hne].
    + rewrite lookup_insert_eq. eexists; reflexivity.
    + rewrite lookup_insert_ne by congruence. exact Hsome.
  - intros Hne. destruct (has_nul (api_key u)); [reflexivity|].
    destruct (truthy (api_key u)); [|reflexivity].
    apply lookup_insert_ne. congruence.
  - intros Hkey Hu Hempty. rewrite (clear_interaction_environ u u' s Hu Hempty).
    apply truthy_true_iff in Hkey. rewrite Hkey. apply lookup_insert_eq.
Qed.

(** ** What the texts carry *)

Lemma contains_trans (a b c : string) : contains a b -> contains b c -> contains a c.
Proof.
  intros (p & q & ->) (p' & q' & ->).
  exists (p' ++ p), (q ++ q'). now rewrite !append_assoc.
Qed.

Lemma draft_text_contains_card (scene_card style : string) :
  contains scene_card (draft_text scene_card style).
Proof.
  unfold draft_text.
  exists (LF ++
    "    The neon lights of the server room hummed with a headache-inducing buzz. " ++ LF ++
    "    This was the style of " ++ style ++ "—short, punchy, no nonsense." ++ LF ++
    "    " ++ LF ++
    "    " ++ DQ ++ "System breach," ++ DQ ++ " the console read." ++ LF ++
    "    " ++ LF ++
    "    He didn't panic. He never panicked. He just typed faster, his fingers blurring like hummingbirds against the mechanical keys." ++ LF ++
    "    (This is a mock draft generated based on: ").
  eexists. rewrite !append_assoc. reflexivity.
Qed.

Lemma draft_text_contains_style (scene_card style : string) :
  contains style (draft_text scene_card style).
Proof.
  unfold draft_text.
  exists (LF ++
    "    The neon lights of the server room hummed with a headache-inducing buzz. " ++ LF ++
    "    This was the style of ").
  eexists. rewrite !append_assoc. reflexivity.
Qed.

Lemma outline_text_contains_premise (premise genre : string) :
  contains premise (outline_text premise genre).
Proof.
  unfold outline_text.
  exists ("{" ++ LF ++
          "    " ++ DQ ++ "title" ++ DQ ++ ": " ++ DQ ++ "Mock Outline for " ++ genre ++ DQ ++ "," ++ LF ++
          "    " ++ DQ ++ "beats" ++ DQ ++ ": [" ++ LF ++
          "        " ++ DQ ++ "1. ").
  eexists. rewrite !append_assoc. reflexivity.
Qed.

(** X10. The draft carries the scene card and the style it was given, the
    report the genre, the outline the genre; and no input, not even an empty
    one, makes any of the three texts empty. *)
Theorem generated_texts_carry_their_inputs
    (premise genre context scene_card style draft : string) (s : state) :
  (exists text, fst (write_draft scene_card style s) = Done text /\
     contains scene_card text /\ contains style text /\ truthy text = true) /\
  (exists verdict, fst (critique_draft draft genre s) = Done verdict /\
     contains genre verdict /\ truthy verdict = true) /\
  (exists outline, fst (generate_outline premise genre context s) = Done outline /\
     contains genre outline /\ truthy outline = true).
Proof.
  split; [|split].
  - exists (draft_text scene_card style).
    split; [reflexivity|]. split; [apply draft_text_contains_card|].
    split; [apply draft_text_contains_style | reflexivity].
  - exists (report_text genre). split; [reflexivity|]. split; [|reflexivity].
    unfold report_text.
    exists (LF ++ "    # Editorial Report" ++ LF ++ "    * **Genre Compliance:** ").
    eexists. rewrite !append_assoc. reflexivity.
  - exists (outline_text premise genre). split; [reflexivity|]. split; [|reflexivity].
    unfold outline_text.
    exists ("{" ++ LF ++
            "    " ++ DQ ++ "title" ++ DQ ++ ": " ++ DQ ++ "Mock Outline for ").
    eexists. rewrite !append_assoc. reflexivity.
Qed.

(** X11. Outline, then draft: when neither the rerun nor the user edits the
    scene card, and the API-key field holds nothing the environment refuses
    at either press, the draft that "Write Draft" stores after "Generate
    Outline" is the draft of that outline, and so contains the premise the
    outline was generated from, whatever the session held before. *)
Theorem outline_then_draft (u u' v v' : user_input) (s : state) :
  edited_card u' = None ->
  edited_card v = None ->
  has_nul (api_key u) = false ->
  has_nul (api_key v) = false ->
  let s1 := snd (interact json_dumps u (Some GenerateOutline) u' s) in
  let s2 := snd (interact json_dumps v (Some WriteDraft) v' s1) in
  draft (session_state s2)
    = Some (draft_text (outline_text (premise_input u) (genre u)) (style v)) /\
  contains (premise_input u)
    (draft_text (outline_text (premise_input u) (genre u)) (style v)).
Proof.
  intros Hu' Hv Hnul Hnulv. split.
  - assert (Hs1 : session_state (snd (interact json_dumps u (Some GenerateOutline) u' s))
                  = put_scene_card (outline_text (premise_input u) (genre u))
                      (init_session (session_state s))).
    { rewrite (generate_outline_settled json_dumps u u' s Hnul), Hu'.
      now destruct (has_nul (api_key u')). }
    destruct (snd (interact json_dumps u (Some GenerateOutline) u' s))
      as [ss1 env1 l1 n1 pg1].
    simpl in Hs1. subst ss1.
    destruct v as [keyv genrev tonev stylev premisev editedv].
    destruct v' as [keyv' genrev' tonev' stylev' premisev' editedv'].
    simpl in Hv, Hnulv. subst editedv.
    generalize (outline_text (premise_input u) (genre u))
      (truthy_outline_text (premise_input u) (genre u)).
    intros outline Houtline.
    destruct (session_state s) as [bible card text verdict].
    exec; reflexivity.
  - eapply contains_trans;
      [apply outline_text_contains_premise | apply draft_text_contains_card].
Qed.

(** X12. Every press opens the next area, whatever the user typed in the
    other fields, as long as the API-key field holds nothing the environment
    refuses: after "Generate Outline" the page settles with the "Write
    Draft" button on it, after "Write Draft" (where it is drawn) with the
    "Analyze & Edit" button, after "Analyze & Edit" (where it is drawn) with
    the two expanders. *)
Theorem press_opens_next_area (u u' : user_input) (s : state) :
  has_nul (api_key u) = false ->
  has_nul (api_key u') = false ->
  In (label WriteDraft)
     (buttons (page (snd (interact json_dumps u (Some GenerateOutline) u' s)))) /\
  (flag_value OutlineExists (session_state s) = true ->
   In (label AnalyzeEdit)
      (buttons (page (snd (interact json_dumps u (Some WriteDraft) u' s))))) /\
  (flag_value DraftExists (session_state s) = true ->
   expanders (page (snd (interact json_dumps u (Some AnalyzeEdit) u' s)))
   = ["View Editorial Report"; "View Story Bible (Memory)"]).
Proof.
  intros Hu Hu'.
  destruct u' as [key' genre' tone' style' premise' edited']. open_run u s.
  simpl in Hu, Hu'.
  cbv [flag_value session_state scene_card draft from_option id].
  split; [|split]; [|intros Hflag..]; exec; simpl; auto 10.
Qed.

(** ** The summary as a log *)

Lemma analyze_settled (u u' : user_input) (s : state) (b : StoryBible)
    (text : string) :
  initialised (session_state s) ->
  story_bible (session_state s) = Some b ->
  draft (session_state s) = Some text ->
  truthy text = true ->
  has_nul (api_key u) = false ->
  story_bible (session_state (snd (interact json_dumps u (Some AnalyzeEdit) u' s)))
    = Some (archive (premise_input u) b) /\
  draft (session_state (snd (interact json_dumps u (Some AnalyzeEdit) u' s)))
    = Some text.
Proof.
  intros Hinit Hbible Hdraft Htruthy Hu.
  destruct u' as [key' genre' tone' style' premise' edited'].
  open_initialised Hinit u s.
  split; exec; reflexivity.
Qed.

(** X13. The summary is an append-only log of the analyses: after any row
    of "Analyze & Edit" interactions on a non-empty draft, none of them with
    a key the environment refuses, it is the summary before them followed by
    one entry per analysis, in order, each with the premise that was in the
    premise field at that press; the characters do not change. *)
Theorem summary_logs_the_analyses (us : list user_input) (s : state)
    (b : StoryBible) (text : string) :
  initialised (session_state s) ->
  story_bible (session_state s) = Some b ->
  draft (session_state s) = Some text ->
  truthy text = true ->
  Forall (fun u => has_nul (api_key u) = false) us ->
  story_bible (session_state (analyse_all us s))
  = Some {| characters := characters b;
            summary := summary b ++ processed (map premise_input us) |}.
Proof.
  revert s b.
  induction us as [|u rest IH]; intros s b Hinit Hbible Hdraft Htruthy Hkeys.
  - simpl. rewrite append_nil_r, Hbible. now destruct b.
  - simpl. inversion Hkeys as [|u0 rest0 Hu Hrest]; subst.
    destruct (analyze_settled u u s b text Hinit Hbible Hdraft Htruthy Hu)
      as [Hb' Hd'].
    rewrite (IH _ _ (interact_initialised json_dumps u (Some AnalyzeEdit) u s Hu Hu)
                Hb' Hd' Htruthy Hrest).
    simpl. now rewrite !append_assoc.
Qed.

(** ** What never matters *)

(** X14. The position of the tone slider changes no run: not its outcome,
    not the session, the environment or the page it leaves. *)
Theorem tone_changes_nothing (t : string) (u : user_input)
    (click : option button) (s : state) :
  run_script json_dumps (with_tone t u) click s = run_script json_dumps u click s.
Proof. open_run u s. destruct click as [[]|]; exec; reflexivity. Qed.

End Handlers.

(** X15. The story bible never reaches a generated text: [generate_outline]
    ignores its context, so with any two serialisations of the bible every
    run, and every interaction, ends the same way in the same state. *)
Theorem bible_context_is_ignored (dumps1 dumps2 : StoryBible -> string)
    (u u' : user_input) (click : option button) (s : state)
    (premise genre context1 context2 : string) :
  generate_outline premise genre context1 s = generate_outline premise genre context2 s /\
  run_script dumps1 u click s = run_script dumps2 u click s /\
  interact dumps1 u click u' s = interact dumps2 u click u' s.
Proof.
  assert (Hrun : forall v c t, run_script dumps1 v c t = run_script dumps2 v c t).
  { intros v c t. open_run v t. destruct c as [[]|]; exec; reflexivity. }
  split; [reflexivity|]. split; [apply Hrun|].
  unfold interact. rewrite Hrun.
  destruct (run_script dumps2 u click s) as [[[]| |key|] s1];
    first [reflexivity | apply Hrun].
Qed.

(* ===================================================================== *)
(** * The handlers on the sample session *)
(* ===================================================================== *)

(** The user of the sample session, now typing over the scene card. *)
Definition editing_input : user_input :=
  {| api_key := "sk-test"; genre := "Cyberpunk"; tone := "Gritty";
     style := "Hemingway-esque brevity";
     premise_input := "Jinx hacks the mainframe but triggers a trap.";
     edited_card := Some "A shorter card." |}.

Definition jinx_outline : string :=
  outline_text "Jinx hacks the mainframe but triggers a trap." "Cyberpunk".

Definition jinx_draft : string := draft_text jinx_outline "Hemingway-esque brevity".

Lemma outlined_initialised : initialised (session_state outlined).
Proof. repeat split; eexists; vm_compute; reflexivity. Defined.

Lemma drafted_initialised : initialised (session_state drafted).
Proof. repeat split; eexists; vm_compute; reflexivity. Defined.

Lemma critiqued_initialised : initialised (session_state critiqued).
Proof. repeat split; eexists; vm_compute; reflexivity. Defined.

Lemma editing_key_accepted : has_nul (api_key editing_input) = false.
Proof. reflexivity. Defined.

Lemma run_ends_in_rerun_or_done_witness :
  has_nul (api_key jinx_input) = false /\
  has_nul (api_key idle_input) = false /\
  fst (interact dumps_plain jinx_input (Some AnalyzeEdit) idle_input drafted) = Done tt /\
  fst (run_script dumps_plain nul_input (Some AnalyzeEdit) drafted) = ValueError.
Proof.
  split; [exact jinx_key_accepted|]. split; [exact idle_key_accepted|].
  split.
  - exact (proj2 (proj2 (run_ends_in_rerun_or_done dumps_plain jinx_input idle_input
                           (Some AnalyzeEdit) drafted))
             jinx_key_accepted idle_key_accepted).
  - exact (proj1 (run_ends_in_rerun_or_done dumps_plain nul_input idle_input
                    (Some AnalyzeEdit) drafted)).
Defined.

Lemma write_draft_press_witness :
  initialised (session_state outlined) /\
  scene_card (session_state outlined) = Some jinx_outline /\
  truthy jinx_outline = true /\
  has_nul (api_key jinx_input) = false /\
  draft (session_state
           (snd (interact dumps_plain jinx_input (Some WriteDraft) jinx_input outlined)))
  = Some jinx_draft.
Proof.
  assert (Hcard : scene_card (session_state outlined) = Some jinx_outline)
    by (vm_compute; reflexivity).
  assert (Htruthy : truthy jinx_outline = true) by reflexivity.
  split; [exact outlined_initialised|]. split; [exact Hcard|]. split; [exact Htruthy|].
  split; [exact jinx_key_accepted|].
  destruct (write_draft_press dumps_plain jinx_input jinx_input outlined jinx_outline
              outlined_initialised Hcard Htruthy jinx_key_accepted)
    as (_ & _ & _ & Hdraft & _).
  exact Hdraft.
Defined.

Lemma analyze_press_witness :
  initialised (session_state drafted) /\
  story_bible (session_state drafted) = Some initial_bible /\
  draft (session_state drafted) = Some jinx_draft /\
  truthy jinx_draft = true /\
  has_nul (api_key jinx_input) = false /\
  story_bible (session_state
                 (snd (interact dumps_plain jinx_input (Some AnalyzeEdit) jinx_input drafted)))
  = Some (archive "Jinx hacks the mainframe but triggers a trap." initial_bible).
Proof.
  assert (Hbible : story_bible (session_state drafted) = Some initial_bible)
    by (vm_compute; reflexivity).
  assert (Hdraft : draft (session_state drafted) = Some jinx_draft)
    by (vm_compute; reflexivity).
  assert (Htruthy : truthy jinx_draft = true) by reflexivity.
  split; [exact drafted_initialised|]. split; [exact Hbible|].
  split; [exact Hdraft|]. split; [exact Htruthy|]. split; [exact jinx_key_accepted|].
  destruct (analyze_press dumps_plain jinx_input jinx_input drafted initial_bible
              jinx_draft drafted_initialised Hbible Hdraft Htruthy jinx_key_accepted)
    as (_ & _ & _ & _ & _ & _ & _ & Hsettled & _).
  exact Hsettled.
Defined.

Lemma press_on_absent_button_witness :
  flag_value OutlineExists (session_state first_page) = false /\
  run_script dumps_plain jinx_input (Some WriteDraft) first_page
  = run_script dumps_plain jinx_input None first_page.
Proof.
  assert (Hflag : flag_value OutlineExists (session_state first_page) = false)
    by (vm_compute; reflexivity).
  split; [exact Hflag|].
  exact (proj1 (press_on_absent_button dumps_plain jinx_input first_page) Hflag).
Defined.

Lemma run_without_press_witness :
  initialised (session_state outlined) /\
  scene_card (session_state outlined) = Some jinx_outline /\
  has_nul (api_key editing_input) = false /\
  scene_card (session_state (snd (run_script dumps_plain editing_input None outlined)))
  = Some "A shorter card.".
Proof.
  assert (Hcard : scene_card (session_state outlined) = Some jinx_outline)
    by (vm_compute; reflexivity).
  split; [exact outlined_initialised|]. split; [exact Hcard|].
  split; [exact editing_key_accepted|].
  destruct (run_without_press dumps_plain editing_input outlined jinx_outline
              outlined_initialised Hcard editing_key_accepted)
    as (_ & Hstored & _).
  exact Hstored.
Defined.

Lemma idle_run_is_idempotent_witness :
  initialised (session_state critiqued) /\
  edited_card jinx_input = None /\
  session_state (snd (run_script dumps_plain jinx_input None critiqued))
  = session_state critiqued.
Proof.
  assert (Hedit : edited_card jinx_input = None) by reflexivity.
  split; [exact critiqued_initialised|]. split; [exact Hedit|].
  exact (proj1 (idle_run_is_idempotent dumps_plain jinx_input critiqued
                  critiqued_initialised Hedit)).
Defined.

Lemma credential_outlives_the_session_witness :
  api_key jinx_input <> "" /\
  has_nul (api_key jinx_input) = false /\
  api_key idle_input = "" /\
  environ (snd (interact dumps_plain jinx_input (Some ClearSessionMemory) idle_input
                  critiqued))
    !! "OPENAI_API_KEY" = Some "sk-test".
Proof.
  assert (Hkey : api_key jinx_input <> "") by (simpl; discriminate).
  assert (Hempty : api_key idle_input = "") by reflexivity.
  split; [exact Hkey|]. split; [exact jinx_key_accepted|]. split; [exact Hempty|].
  destruct (credential_outlives_the_session dumps_plain jinx_input idle_input
              None critiqued "OPENAI_API_KEY")
    as (_ & _ & Hclear).
  exact (Hclear Hkey jinx_key_accepted Hempty).
Defined.

Lemma outline_then_draft_witness :
  edited_card jinx_input = None /\
  has_nul (api_key jinx_input) = false /\
  draft (session_state
           (snd (interact dumps_plain jinx_input (Some WriteDraft) jinx_input
                   (snd (interact dumps_plain jinx_input (Some GenerateOutline)
                           jinx_input stale_state)))))
  = Some jinx_draft.
Proof.
  assert (Hedit : edited_card jinx_input = None) by reflexivity.
  split; [exact Hedit|]. split; [exact jinx_key_accepted|].
  exact (proj1 (outline_then_draft dumps_plain jinx_input jinx_input jinx_input
                  jinx_input stale_state Hedit Hedit
                  jinx_key_accepted jinx_key_accepted)).
Defined.

Lemma press_opens_next_area_witness :
  has_nul (api_key jinx_input) = false /\
  flag_value OutlineExists (session_state outlined) = true /\
  In (label AnalyzeEdit)
     (buttons (page (snd (interact dumps_plain jinx_input (Some WriteDraft) jinx_input
                            outlined)))).
Proof.
  assert (Hflag : flag_value OutlineExists (session_state outlined) = true)
    by (vm_compute; reflexivity).
  split; [exact jinx_key_accepted|]. split; [exact Hflag|].
  destruct (press_opens_next_area dumps_plain jinx_input jinx_input outlined
              jinx_key_accepted jinx_key_accepted)
    as (_ & Hdraft & _).
  exact (Hdraft Hflag).
Defined.

Lemma summary_logs_the_analyses_witness :
  initialised (session_state drafted) /\
  story_bible (session_state drafted) = Some initial_bible /\
  draft (session_state drafted) = Some jinx_draft /\
  truthy jinx_draft = true /\
  Forall (fun u => has_nul (api_key u) = false) [jinx_input; idle_input] /\
  story_bible (session_state (analyse_all dumps_plain [jinx_input; idle_input] drafted))
  = Some {| characters := ∅;
            summary := "Start of the story."
                       ++ " -> Processed premise: "
                       ++ "Jinx hacks the mainframe but triggers a trap."
                       ++ " -> Processed premise: " |}.
Proof.
  assert (Hbible : story_bible (session_state drafted) = Some initial_bible)
    by (vm_compute; reflexivity).
  assert (Hdraft : draft (session_state drafted) = Some jinx_draft)
    by (vm_compute; reflexivity).
  assert (Htruthy : truthy jinx_draft = true) by reflexivity.
  assert (Hkeys : Forall (fun u => has_nul (api_key u) = false) [jinx_input; idle_input])
    by (repeat constructor).
  split; [exact drafted_initialised|]. split; [exact Hbible|].
  split; [exact Hdraft|]. split; [exact Htruthy|]. split; [exact Hkeys|].
  rewrite (summary_logs_the_analyses dumps_plain [jinx_input; idle_input] drafted
             initial_bible jinx_draft drafted_initialised Hbible Hdraft Htruthy Hkeys).
  vm_compute. reflexivity.
Defined.
